(** * Cloud-automation helpers: IAMAdmin, InstanceManagement, StorageBucket

    A shallow embedding of the three helper classes of [src/convex] and the
    properties their specification states about them.

    The helpers are glue around a remote provider (boto3 clients and
    resources), a local file system, a logger and a source of random bytes.
    Each of these is made explicit:

    - the provider is an interface ([Provider]): one transition per API
      request, on a provider state the helpers never inspect;
    - every effect a helper performs is appended, in program order, to the
      [trace] of the [World];
    - Python exceptions are the [Raise] outcome of a state-and-exception
      monad whose state survives a raise, so that an [except] clause sees
      the local variables exactly as the failing statement left them. *)

From Stdlib Require Import ZArith NArith String Ascii List Lia.
From Stdlib Require Import DecimalString DecimalPos DecimalN DecimalFacts.
From stdpp Require Import base gmap strings list pretty.

Local Open Scope string_scope.
Local Open Scope list_scope.

(** ** Python exceptions *)

(** [botocore.exceptions.ClientError]: the error structure of the response
    and the name of the operation that failed. *)
Record client_error := ClientErr {
  err_code : string;
  err_message : string;
  err_operation : string
}.

Inductive exn :=
| ClientError (ce : client_error)
| WaiterError (waiter : string)
| TypeError (msg : string)
| AttributeError (cls attr : string)
| UnboundLocalError (var : string)
| OSError (path : string)
| JSONDecodeError.

Inductive outcome (A : Type) :=
| Return (a : A)
| Raise (e : exn).
Arguments Return {A} a.
Arguments Raise {A} e.

(** One lower-case hexadecimal digit, as ['%x'] prints it. *)
Definition hex_digit (d : N) : ascii :=
  if (d <? 10)%N then ascii_of_N (48 + d) else ascii_of_N (87 + d).

(** ** json.dumps and json.loads

    JSON documents as Python holds them: [None], [bool], [int], [str],
    [list] and [dict] with string keys, in insertion order. Strings are
    sequences of code points below 256; [float] is not modelled, and a
    float literal is refused by [loads]. *)

Module Json.

#[warnings="-register-all"] Inductive t :=
  | Null
  | Bool (b : bool)
  | Int (z : Z)
  | Str (s : string)
  | Arr (items : list t)
  | Obj (members : list (string * t)).

Definition text := list ascii.

Definition quote : ascii := ascii_of_N 34.
Definition backslash : ascii := ascii_of_N 92.

(** [json.encoder.py_encode_basestring_ascii] on one character. *)
Definition escape (c : ascii) : text :=
  let n := N_of_ascii c in
  if (n =? 34)%N then [backslash; quote]
  else if (n =? 92)%N then [backslash; backslash]
  else if (n =? 10)%N then [backslash; "n"%char]
  else if (n =? 13)%N then [backslash; "r"%char]
  else if (n =? 9)%N then [backslash; "t"%char]
  else if (n =? 8)%N then [backslash; "b"%char]
  else if (n =? 12)%N then [backslash; "f"%char]
  else if ((32 <=? n) && (n <=? 126))%N then [c]
  else [backslash; "u"%char; "0"%char; "0"%char;
        hex_digit (n / 16); hex_digit (n mod 16)].

Definition dumps_str (s : string) : text :=
  quote :: flat_map escape (list_ascii_of_string s) ++ [quote].

Definition dumps_int (z : Z) : text :=
  match z with
  | Z0 => ["0"%char]
  | Zpos p => list_ascii_of_string (NilEmpty.string_of_uint (Pos.to_uint p))
  | Zneg p =>
      "-"%char :: list_ascii_of_string (NilEmpty.string_of_uint (Pos.to_uint p))
  end.

(** [', '.join(chunks)] *)
Fixpoint join (chunks : list text) : text :=
  match chunks with
  | [] => []
  | [c] => c
  | c :: rest => c ++ ","%char :: " "%char :: join rest
  end.

Fixpoint dumps_text (v : t) : text :=
  match v with
  | Null => list_ascii_of_string "null"
  | Bool true => list_ascii_of_string "true"
  | Bool false => list_ascii_of_string "false"
  | Int z => dumps_int z
  | Str s => dumps_str s
  | Arr items => "["%char :: join (map dumps_text items) ++ ["]"%char]
  | Obj members =>
      "{"%char
      :: join (map (fun kv => dumps_str (fst kv) ++ ":"%char :: " "%char
                               :: dumps_text (snd kv)) members)
      ++ ["}"%char]
  end.

(** [json.dumps(v)] with the default separators and [ensure_ascii]. *)
Definition dumps (v : t) : string := string_of_list_ascii (dumps_text v).

Definition is_ws (c : ascii) : bool :=
  let n := N_of_ascii c in
  ((n =? 32) || (n =? 9) || (n =? 10) || (n =? 13))%N.

Fixpoint skip_ws (s : text) : text :=
  match s with
  | c :: s' => if is_ws c then skip_ws s' else s
  | [] => []
  end.

Definition is_digit (c : ascii) : bool :=
  let n := N_of_ascii c in ((48 <=? n) && (n <=? 57))%N.

Definition hex_value (c : ascii) : option N :=
  let n := N_of_ascii c in
  if ((48 <=? n) && (n <=? 57))%N then Some (n - 48)%N
  else if ((97 <=? n) && (n <=? 102))%N then Some (n - 87)%N
  else if ((65 <=? n) && (n <=? 70))%N then Some (n - 55)%N
  else None.

(** The character a backslash escape stands for. *)
Definition unescape (e : ascii) : option ascii :=
  let n := N_of_ascii e in
  if (n =? 34)%N then Some quote
  else if (n =? 92)%N then Some backslash
  else if (n =? 47)%N then Some "/"%char
  else if (n =? 98)%N then Some (ascii_of_N 8)
  else if (n =? 102)%N then Some (ascii_of_N 12)
  else if (n =? 110)%N then Some (ascii_of_N 10)
  else if (n =? 114)%N then Some (ascii_of_N 13)
  else if (n =? 116)%N then Some (ascii_of_N 9)
  else None.

(** [json.decoder.py_scanstring], entered after the opening quote; [acc]
    holds the characters read so far, last first. *)
Fixpoint scanstring (s : text) (acc : list ascii) : option (string * text) :=
  match s with
  | [] => None
  | c :: rest =>
      if (N_of_ascii c =? 34)%N then
        Some (string_of_list_ascii (rev acc), rest)
      else if (N_of_ascii c =? 92)%N then
        match rest with
        | [] => None
        | e :: rest' =>
            if (N_of_ascii e =? 117)%N then
              match rest' with
              | h1 :: h2 :: h3 :: h4 :: rest'' =>
                  match hex_value h1, hex_value h2, hex_value h3, hex_value h4 with
                  | Some a, Some b, Some c, Some d =>
                      let cp := (((a * 16 + b) * 16 + c) * 16 + d)%N in
                      if (cp <? 256)%N
                      then scanstring rest'' (ascii_of_N cp :: acc)
                      else None
                  | _, _, _, _ => None
                  end
              | _ => None
              end
            else
              match unescape e with
              | Some c' => scanstring rest' (c' :: acc)
              | None => None
              end
        end
      else if (N_of_ascii c <? 32)%N then None
      else scanstring rest (c :: acc)
  end.

Fixpoint span_digits (s : text) : text * text :=
  match s with
  | c :: s' =>
      if is_digit c then let (ds, rest) := span_digits s' in (c :: ds, rest)
      else ([], s)
  | [] => ([], [])
  end.

(** The integer literals of [NUMBER_RE]: [0] or a digit string with no
    leading zero; a fraction or exponent makes the literal a float. *)
Definition scan_nat (s : text) : option (N * text) :=
  let (ds, rest) := span_digits s in
  match ds with
  | [] => None
  | d :: ds' =>
      if (N_of_ascii d =? 48)%N && negb (bool_decide (ds' = [])) then None
      else
        match rest with
        | c :: _ =>
            if ((N_of_ascii c =? 46) || (N_of_ascii c =? 101)
                || (N_of_ascii c =? 69))%N
            then None
            else option_map (fun u => (N.of_uint u, rest))
                   (NilEmpty.uint_of_string (string_of_list_ascii ds))
        | [] => option_map (fun u => (N.of_uint u, rest))
                  (NilEmpty.uint_of_string (string_of_list_ascii ds))
        end
  end.

(** Python's [dict(pairs)]: a later pair replaces the value of an earlier
    pair with the same key, at the earlier position. *)
Fixpoint dict_set (k : string) (v : t) (d : list (string * t))
  : list (string * t) :=
  match d with
  | [] => [(k, v)]
  | (k', v') :: d' =>
      if String.eqb k k' then (k, v) :: d' else (k', v') :: dict_set k v d'
  end.

Definition dict (pairs : list (string * t)) : list (string * t) :=
  fold_left (fun d kv => dict_set (fst kv) (snd kv) d) pairs [].

(** [s] without its prefix [lit], when it has that prefix. *)
Fixpoint strip (lit s : text) : option text :=
  match lit, s with
  | [], _ => Some s
  | a :: lit', b :: s' => if Ascii.eqb a b then strip lit' s' else None
  | _ :: _, [] => None
  end.

(** [scan_once], [JSONArray] and [JSONObject] of [json.decoder]; [fuel]
    bounds the number of nested and successive values. *)
Fixpoint scan_once (fuel : nat) (s : text) : option (t * text) :=
    match fuel with
    | O => None
    | S fuel =>
        match s with
        | [] => None
        | c :: rest =>
            if Ascii.eqb c quote then
              option_map (fun sr => (Str (fst sr), snd sr)) (scanstring rest [])
            else if Ascii.eqb c "{" then
              match skip_ws rest with
              | [] => None
              | c' :: rest' =>
                  if Ascii.eqb c' "}" then Some (Obj [], rest')
                  else scan_members fuel (c' :: rest') []
              end
            else if Ascii.eqb c "[" then
              match skip_ws rest with
              | [] => None
              | c' :: rest' =>
                  if Ascii.eqb c' "]" then Some (Arr [], rest')
                  else scan_items fuel (c' :: rest') []
              end
            else if Ascii.eqb c "n" then
              option_map (fun r => (Null, r))
                         (strip (list_ascii_of_string "ull") rest)
            else if Ascii.eqb c "t" then
              option_map (fun r => (Bool true, r))
                         (strip (list_ascii_of_string "rue") rest)
            else if Ascii.eqb c "f" then
              option_map (fun r => (Bool false, r))
                         (strip (list_ascii_of_string "alse") rest)
            else if Ascii.eqb c "-" then
              option_map (fun nr => (Int (- Z.of_N (fst nr)), snd nr))
                         (scan_nat rest)
            else
              option_map (fun nr => (Int (Z.of_N (fst nr)), snd nr)) (scan_nat s)
        end
    end
  with scan_items (fuel : nat) (s : text) (acc : list t) : option (t * text) :=
    match fuel with
    | O => None
    | S fuel =>
        match scan_once fuel s with
        | None => None
        | Some (v, rest) =>
            match skip_ws rest with
            | [] => None
            | c :: rest' =>
                if Ascii.eqb c "]" then Some (Arr (rev (v :: acc)), rest')
                else if Ascii.eqb c "," then
                  scan_items fuel (skip_ws rest') (v :: acc)
                else None
            end
        end
    end
  with scan_members (fuel : nat) (s : text) (acc : list (string * t))
    : option (t * text) :=
    match fuel with
    | O => None
    | S fuel =>
        match s with
        | [] => None
        | c :: s' =>
            if negb (Ascii.eqb c quote) then None
            else
              match scanstring s' [] with
              | None => None
              | Some (k, rest) =>
                  match skip_ws rest with
                  | [] => None
                  | c1 :: rest1 =>
                      if negb (Ascii.eqb c1 ":") then None
                      else
                        match scan_once fuel (skip_ws rest1) with
                        | None => None
                        | Some (v, rest2) =>
                            match skip_ws rest2 with
                            | [] => None
                            | c2 :: rest3 =>
                                if Ascii.eqb c2 "}" then
                                  Some (Obj (dict (rev ((k, v) :: acc))), rest3)
                                else if Ascii.eqb c2 "," then
                                  scan_members fuel (skip_ws rest3)
                                               ((k, v) :: acc)
                                else None
                            end
                        end
                  end
              end
        end
    end.

(** The keys of every [dict] are distinct. *)
Fixpoint wf (v : t) : bool :=
  match v with
  | Arr items => forallb wf items
  | Obj members =>
      bool_decide (NoDup (map fst members))
      && forallb (fun kv => wf (snd kv)) members
  | _ => true
  end.

(** The number of values in [v], each counted once more for each list or
    dictionary that holds it: the fuel that scanning [dumps v] takes. *)
Fixpoint size (v : t) : nat :=
  match v with
  | Arr items => S (list_sum (map (fun x => S (size x)) items))
  | Obj members => S (list_sum (map (fun kv => S (size (snd kv))) members))
  | _ => 1
  end.

(** [json.loads(s)]; [None] is [JSONDecodeError]. *)
Definition loads (s : string) : option t :=
  let s := skip_ws (list_ascii_of_string s) in
  match scan_once (S (List.length s)) s with
  | Some (v, rest) =>
      match skip_ws rest with
      | [] => Some v
      | _ => None
      end
  | None => None
  end.

End Json.

(** ** Provider requests and responses *)

(** [ec2.Instance]: the two attributes the helpers read. *)
Record instance := Instance { id : string; state : string }.

Inductive api_call :=
(* IAM *)
| ListAttachedRolePolicies (role : string)
| DetachRolePolicy (role policy_arn : string)
| ListInstanceProfilesForRole (role : string)
| RemoveRoleFromInstanceProfile (profile role : string)
| ListRolePolicies (role : string)
| DeleteRolePolicy (role policy : string)
| DeleteRole (role : string)
| CreateInstanceProfile (profile path : string)
| AddRoleToInstanceProfile (profile role : string)
| GetInstanceProfile (profile : string)
(* EC2 *)
| DeleteKeyPair (key : string)
| CreateKeyPair (key : string)
| RunInstances (image : string) (min_count max_count : Z) (itype : string)
               (user_data : string) (groups : list string) (key : string)
| DescribeInstances
(* S3 *)
| CreateBucket (bucket location : string)
| WaitUntilBucketExists (bucket : string)
| PutBucketPolicy (bucket policy : string)
| GetBucketPolicy (bucket : string).

(** What the helpers read out of a successful response. *)
Definition response (c : api_call) : Type :=
  match c with
  | ListAttachedRolePolicies _ => list string      (* policy ARNs *)
  | ListInstanceProfilesForRole _ => list string   (* profile names *)
  | ListRolePolicies _ => list string              (* inline policy names *)
  | CreateInstanceProfile _ _ => string            (* ['InstanceProfile']['Arn'] *)
  | GetInstanceProfile _ => string                 (* arn *)
  | CreateKeyPair _ => string                      (* ["KeyMaterial"] *)
  | RunInstances _ _ _ _ _ _ _ => list instance
  | DescribeInstances => list instance
  | GetBucketPolicy _ => string                    (* ['Policy'] *)
  | _ => unit
  end.

(** The remote provider: each request either fails with an error structure
    or succeeds with a response, and moves the provider to a new state. *)
Class Provider (Cloud : Type) := {
  request : forall c : api_call, Cloud -> (client_error + response c) * Cloud
}.

(** ** Effects *)

Inductive level := DEBUG | INFO | WARNING | ERROR.

Inductive log_arg :=
| LStr (s : string)
| LInstances (l : list instance)
| LResponse
| LJson (v : Json.t).

Inductive event :=
| EApi (c : api_call) (r : client_error + response c)
| EWrite (path content : string)
| ELog (lvl : level) (exc_info : bool) (msg : log_arg) (args : list log_arg)
| EPrint (args : list string).

Record World (Cloud : Type) := MkWorld {
  cloud : Cloud;
  files : gmap string string;       (* local file system: path -> content *)
  denied : gset string;             (* paths [open(_, 'w')] fails on *)
  urandom : nat -> N;               (* the n-th 16-byte draw of os.urandom *)
  drawn : nat;                      (* draws consumed so far *)
  session_region : string;          (* boto3.session.Session().region_name *)
  trace : list event
}.
Arguments MkWorld {Cloud}.
Arguments cloud {Cloud}.
Arguments files {Cloud}.
Arguments denied {Cloud}.
Arguments urandom {Cloud}.
Arguments drawn {Cloud}.
Arguments session_region {Cloud}.
Arguments trace {Cloud}.

(** ** The monad of method bodies

    [L] is the frame of local variables of the method being run. *)

Definition M (Cloud L A : Type) : Type :=
  L -> World Cloud -> outcome A * L * World Cloud.

Section Runtime.
Context {Cloud : Type} `{Provider Cloud}.

Definition ret {L A} (a : A) : M Cloud L A := fun l w => (Return a, l, w).

Definition bind {L A B} (m : M Cloud L A) (k : A -> M Cloud L B) : M Cloud L B :=
  fun l w =>
    match m l w with
    | (Return a, l', w') => k a l' w'
    | (Raise e, l', w') => (Raise e, l', w')
    end.

Definition raise {L A} (e : exn) : M Cloud L A := fun l w => (Raise e, l, w).

Definition emit (e : event) (w : World Cloud) : World Cloud :=
  MkWorld (cloud w) (files w) (denied w) (urandom w) (drawn w)
          (session_region w) (trace w ++ [e]).

Definition with_cloud (c : Cloud) (w : World Cloud) : World Cloud :=
  MkWorld c (files w) (denied w) (urandom w) (drawn w)
          (session_region w) (trace w).

(** The world after some steps: the provider in state [c], the files
    [fs], and [new] appended to the trace. *)
Definition advance (w : World Cloud) (c : Cloud) (fs : gmap string string)
    (new : list event) : World Cloud :=
  MkWorld c fs (denied w) (urandom w) (drawn w) (session_region w)
          (trace w ++ new).

(** The exception a failed request surfaces as: waiters raise
    [WaiterError], every other request raises [ClientError]. *)
Definition exn_of (c : api_call) (ce : client_error) : exn :=
  match c with
  | WaitUntilBucketExists _ => WaiterError "BucketExists"
  | _ => ClientError ce
  end.

(** One provider request. *)
Definition call {L} (c : api_call) : M Cloud L (response c) :=
  fun l w =>
    let '(r, c') := request c (cloud w) in
    let w' := emit (EApi c r) (with_cloud c' w) in
    match r with
    | inl ce => (Raise (exn_of c ce), l, w')
    | inr a => (Return a, l, w')
    end.

(** [logger.<level>(msg, *args)]. *)
Definition log {L} (lvl : level) (msg : string) (args : list log_arg)
  : M Cloud L unit :=
  fun l w => (Return tt, l, emit (ELog lvl false (LStr msg) args) w).

(** [logger.exception(msg, *args)]: level ERROR with the traceback. *)
Definition log_exception {L} (msg : log_arg) (args : list log_arg)
  : M Cloud L unit :=
  fun l w => (Return tt, l, emit (ELog ERROR true msg args) w).

Definition print {L} (args : list string) : M Cloud L unit :=
  fun l w => (Return tt, l, emit (EPrint args) w).

(** [with open(path, 'w') as f: f.write(content)]. *)
Definition write_file {L} (path content : string) : M Cloud L unit :=
  fun l w =>
    if decide (path ∈ denied w) then (Raise (OSError path), l, w)
    else (Return tt, l,
          emit (EWrite path content)
               (MkWorld (cloud w) (<[path := content]> (files w)) (denied w)
                        (urandom w) (drawn w) (session_region w) (trace w))).

(** Reading a local variable: unbound locals raise. *)
Definition load {L A} (name : string) (proj : L -> option A) : M Cloud L A :=
  fun l w =>
    match proj l with
    | Some a => (Return a, l, w)
    | None => (Raise (UnboundLocalError name), l, w)
    end.

(** Assigning a local variable. *)
Definition store {L} (upd : L -> L) : M Cloud L unit :=
  fun l w => (Return tt, upd l, w).

(** [try: body / except ClientError as error: handler / else: orelse]. *)
Definition try_except_else {L A B} (body : M Cloud L A)
    (handler : client_error -> M Cloud L B) (orelse : A -> M Cloud L B)
  : M Cloud L B :=
  fun l w =>
    match body l w with
    | (Return a, l', w') => orelse a l' w'
    | (Raise (ClientError ce), l', w') => handler ce l' w'
    | (Raise e, l', w') => (Raise e, l', w')
    end.

(** [for x in xs: body x], also the body of a list comprehension. *)
Fixpoint for_each {L A B} (xs : list A) (body : A -> M Cloud L B)
  : M Cloud L (list B) :=
  match xs with
  | [] => ret []
  | x :: xs' =>
      bind (body x) (fun b =>
      bind (for_each xs' body) (fun bs => ret (b :: bs)))
  end.

(** Running a method: a fresh frame, dropped on exit. *)
Definition run {L A} (frame : L) (m : M Cloud L A)
  : World Cloud -> outcome A * World Cloud :=
  fun w => let '(r, _, w') := m frame w in (r, w').

End Runtime.

Declare Scope py_scope.
Delimit Scope py_scope with py.
Notation "x <- m ;; k" := (bind m (fun x => k))
  (at level 100, m at next level, right associativity) : py_scope.
Notation "m ;; k" := (bind m (fun _ => k))
  (at level 100, right associativity) : py_scope.
Local Open Scope py_scope.

(** [repr(error)] of a [ClientError]. *)
Definition repr_error (ce : client_error) : string :=
  "ClientError('An error occurred (" +:+ err_code ce +:+ ") when calling the "
  +:+ err_operation ce +:+ " operation: " +:+ err_message ce +:+ "')".

(** ** IAMAdmin.py *)

Module IAMAdmin.

Record t := New { path : string; region : string }.

Section Methods.
Context {Cloud : Type} `{Provider Cloud}.

(** The [try] suite of [delete_role]. *)
Definition delete_role_try (role_name : string) : M Cloud unit unit :=
  log DEBUG "Removing Managed Policies from %s" [LStr role_name] ;;
  attached <- call (ListAttachedRolePolicies role_name) ;;
  for_each attached (fun arn => call (DetachRolePolicy role_name arn)) ;;
  log DEBUG "Removing role from InstanceProfiles" [] ;;
  profiles <- call (ListInstanceProfilesForRole role_name) ;;
  for_each profiles
    (fun p => call (RemoveRoleFromInstanceProfile p role_name)) ;;
  log DEBUG "Deleting Inline Policies" [] ;;
  inline <- call (ListRolePolicies role_name) ;;
  for_each inline (fun p => call (DeleteRolePolicy role_name p)) ;;
  call (DeleteRole role_name) ;;
  print ["+ Deleted IAM Role: %s"; role_name].

(** [delete_role(self, role_name)] *)
Definition delete_role (self : t) (role_name : string)
  : World Cloud -> outcome bool * World Cloud :=
  run tt (try_except_else
    (delete_role_try role_name)
    (fun error =>
       log_exception (LStr "Couldn't delete role named '%s' ")
                     [LStr role_name] ;;
       log_exception (LStr "Error:  %s") [LStr (repr_error error)] ;;
       raise (ClientError error))
    (fun _ => ret true)).

(** [create_instance_profile(self, profile_name)]; [None] is Python's
    [None], what a method returns when it runs off its end. *)
Definition create_instance_profile (self : t) (profile_name : string)
  : World Cloud -> outcome (option string) * World Cloud :=
  run tt (try_except_else
    (profile_arn <- call (CreateInstanceProfile profile_name
                            ("/" +:+ path self +:+ "/")) ;;
     log DEBUG "Created IAM Instance profile: %s " [LStr profile_arn] ;;
     ret profile_arn)
    (fun error =>
       log_exception (LStr "Couldn't instance profile named '%s'.")
                     [LStr profile_name] ;;
       log_exception (LStr "Error:  %s") [LStr (repr_error error)] ;;
       (* #raise error *)
       ret None)
    (fun profile_arn => ret (Some profile_arn))).

(** Locals of [add_role_instance_profile] that are read before they are
    certainly bound. *)
Record add_role_frame := { instance_role_profile : option unit }.

(** [self.LOGGER(...)]: a [logging.Logger] has no [__call__]. *)
Definition call_logger_object {L A} : M Cloud L A :=
  raise (TypeError "'Logger' object is not callable").

(** [add_role_instance_profile(self, profile_name, profile_arn, role_name)] *)
Definition add_role_instance_profile (self : t)
    (profile_name profile_arn role_name : string)
  : World Cloud -> outcome string * World Cloud :=
  run {| instance_role_profile := None |} (try_except_else
    (r <- call (AddRoleToInstanceProfile profile_name role_name) ;;
     store (fun _ => {| instance_role_profile := Some r |}) ;;
     call_logger_object)
    (fun error =>
       log_exception
         (LStr "Couldn't Add role named '%s  to instance profile: %s  in region=%s.")
         [LStr role_name; LStr profile_name; LStr (region self)] ;;
       _ <- load "instance_role_profile" instance_role_profile ;;
       log_exception (LStr "Response : %s") [LResponse] ;;
       log_exception (LStr "Error:  %s") [LStr (repr_error error)] ;;
       raise (ClientError error))
    (fun _ : unit => ret profile_arn)).

(** [get_instance_profile(self, profile_name)]: reading [.arn] of the
    lazy resource is what issues the request. *)
Definition get_instance_profile (self : t) (profile_name : string)
  : World Cloud -> outcome (option string) * World Cloud :=
  run tt (try_except_else
    (profile_arn <- call (GetInstanceProfile profile_name) ;;
     log DEBUG " Get IAM Instance profile: %s " [LStr profile_arn] ;;
     ret profile_arn)
    (fun error =>
       log_exception
         (LStr "Couldn't get instance profile named '%s' in region=%s.")
         [LStr profile_name; LStr (region self)] ;;
       log_exception (LStr "Error:  %s") [LStr (repr_error error)] ;;
       (* #raise error *)
       ret None)
    (fun profile_arn => ret (Some profile_arn))).

End Methods.
End IAMAdmin.

(** ** InstanceManagement.py *)

Module InstanceManagement.

Record t := New { region : string }.

(** Locals of [create_instance] that are read before they are certainly
    bound. *)
Record frame := Frame {
    instances : option (list instance);
    first_instance : option instance;
    instance_id : option string
  }.

Section Methods.
Context {Cloud : Type} `{Provider Cloud}.

(** The body of [for instance in self.ec2.instances.all()]. *)
Definition record_instance (instance : instance) : M Cloud frame unit :=
  log DEBUG "Instance id : %s instance state : "
      [LStr (id instance); LStr (state instance)] ;;
  store (fun l => Frame (instances l) (Some instance) (instance_id l)) ;;
  store (fun l => Frame (instances l) (first_instance l)
                        (Some (id instance))).

(** [create_instance(self, key_file, key_pair, role_arn, role_name,
                     startup_script, security_groups)] *)
Definition create_instance (self : t)
    (key_file key_pair role_arn role_name startup_script : string)
    (security_groups : list string)
  : World Cloud -> outcome string * World Cloud :=
  run (Frame None None None) (try_except_else
    (call (DeleteKeyPair key_pair) ;;
     key_material <- call (CreateKeyPair key_pair) ;;
     let key_pair_out := key_material in
     write_file key_file key_pair_out ;;
     created <- call (RunInstances "ami-032598fcc7e9d1c7a" 1 1 "t2.micro"
                        startup_script security_groups key_pair) ;;
     store (fun l => Frame (Some created) (first_instance l) (instance_id l)) ;;
     listing <- call DescribeInstances ;;
     for_each listing record_instance ;;
     ret tt)
    (fun error =>
       insts <- load "instances" instances ;;
       log_exception (LInstances insts) [] ;;
       log_exception (LStr "Couldn't create EC2 Instance in region=%s.")
                     [LStr (region self)] ;;
       log_exception (LStr "Error:  %s") [LStr (repr_error error)] ;;
       raise (ClientError error))
    (fun _ => load "instance_id" instance_id)).

End Methods.
End InstanceManagement.

(** ** uuid.uuid4 and str(UUID) *)

Module Uuid.

(** The [k] low hexadecimal digits of [n], most significant first. *)
Fixpoint hex_digits (k : nat) (n : N) : list ascii :=
  match k with
  | O => []
  | S k' => hex_digits k' (n / 16) ++ [hex_digit (n mod 16)]
  end.

(** [UUID(bytes=b, version=4).int], for [b] read big-endian as [n]. *)
Definition uuid4_int (n : N) : N :=
  let i := (n mod 2 ^ 128)%N in
  let i := N.ldiff i (N.shiftl 0xc000 48) in
  let i := N.lor i (N.shiftl 0x8000 48) in
  let i := N.ldiff i (N.shiftl 0xf000 64) in
  N.lor i (N.shiftl 4 76).

(** [str(u)]: ['%032x' % u.int], cut 8-4-4-4-12. *)
Definition str (i : N) : string :=
  let hex := hex_digits 32 i in
  let dash := ["-"%char] in
  string_of_list_ascii
    (take 8 hex ++ dash ++ take 4 (drop 8 hex) ++ dash
     ++ take 4 (drop 12 hex) ++ dash ++ take 4 (drop 16 hex) ++ dash
     ++ drop 20 hex).

Section Draw.
Context {Cloud : Type}.

(** [uuid.uuid4()]: sixteen fresh bytes from [os.urandom]. *)
Definition uuid4 {L} : M Cloud L N :=
      fun l w =>
        (Return (uuid4_int (urandom w (drawn w))), l,
         MkWorld (cloud w) (files w) (denied w) (urandom w) (S (drawn w))
                 (session_region w) (trace w)).
End Draw.

End Uuid.

(** ** StorageBucket.py *)

Module StorageBucket.

Record t := New {
    name : string;
    bucketname : string;
    current_region : string
  }.

(** The instance attributes [__init__] assigns. *)
Definition attributes : list string :=
  ["name"; "bucketname"; "LOGGER"; "client"; "session"; "current_region";
   "logger"; "s3resource"; "bucket"].

Section Methods.
Context {Cloud : Type} `{Provider Cloud}.

(** [self.<attr>]: an attribute that was never assigned raises. *)
Definition getattr {L} (attr : string) : M Cloud L unit :=
  if bool_decide (attr ∈ attributes) then ret tt
  else raise (AttributeError "StorageBucket" attr).

(** [.meta.client.meta.region_name] and [session.region_name]: the
    region of the default session. *)
Definition region_name {L} : M Cloud L string :=
  fun l w => (Return (session_region w), l, w).

(** [create_bucket_name(self, bucket_prefix)] *)
Definition create_bucket_name {L} (bucket_prefix : string)
  : M Cloud L string :=
  u <- Uuid.uuid4 ;;
  ret (bucket_prefix +:+ Uuid.str u).

(** [__init__(self)] *)
Definition init : World Cloud -> outcome t * World Cloud :=
  run tt (
    bucketname <- create_bucket_name "sth" ;;
    current_region <- region_name ;;
    ret (New "Storage Bucket" bucketname current_region)).

(** [create_bucket(self)]; the bucket resource that is returned is
    identified by its name. *)
Definition create_bucket (self : t)
  : World Cloud -> outcome string * World Cloud :=
  run tt (try_except_else
    (call (CreateBucket (bucketname self) (current_region self)) ;;
     let bucket_response := bucketname self in
     call (WaitUntilBucketExists bucket_response) ;;
     getattr "s3resource" ;;
     region <- region_name ;;
     log INFO "Created bucket '%s' in region=%s"
         [LStr bucket_response; LStr region] ;;
     print [bucketname self; current_region self] ;;
     ret bucket_response)
    (fun error =>
       log_exception (LStr "Couldn't create bucket named '%s' in region=%s.")
                     [LStr (bucketname self); LStr (current_region self)] ;;
       (if String.eqb (err_code error) "IllegalLocationConstraintException"
        then
          getattr "s3resources3" ;;
          region <- region_name ;;
          log ERROR
              ("When the session Region is anything other than us-east-1, "
               +:+ "you must specify a LocationConstraint that matches the "
               +:+ "session Region. The current session Region is %s and the "
               +:+ "LocationConstraint Region is %s.")
              [LStr region; LStr (current_region self)]
        else ret tt) ;;
       raise (ClientError error))
    (fun bucket_response => ret bucket_response)).

(** [put_policy(self, bucket_name, policy)] *)
Definition put_policy (self : t) (bucket_name : string) (policy : Json.t)
  : World Cloud -> outcome unit * World Cloud :=
  run tt (try_except_else
    (call (PutBucketPolicy bucket_name (Json.dumps policy)) ;;
     log INFO "Put policy %s for bucket '%s'."
         [LJson policy; LStr bucket_name])
    (fun error =>
       log_exception (LStr "Couldn't apply policy to bucket '%s'.")
                     [LStr bucket_name] ;;
       raise (ClientError error))
    (fun _ => ret tt)).

(** [get_policy(self, bucket_name)]: the first read of [policy.policy]
    loads the resource, the second reads what was loaded. *)
Definition get_policy (self : t) (bucket_name : string)
  : World Cloud -> outcome Json.t * World Cloud :=
  run tt (try_except_else
    (policy <- call (GetBucketPolicy bucket_name) ;;
     log INFO "Got policy %s for bucket '%s'."
         [LStr policy; LStr bucket_name] ;;
     ret policy)
    (fun error =>
       log_exception (LStr "Couldn't get policy for bucket '%s'.")
                     [LStr bucket_name] ;;
       raise (ClientError error))
    (fun policy =>
       match Json.loads policy with
       | Some v => ret v
       | None => raise JSONDecodeError
       end)).

End Methods.
End StorageBucket.

(** ** An in-memory provider

    A test double for the remote services, after the provider's documented
    contract: a role cannot be deleted while anything is attached to it, an
    instance profile holds at most one role, key material is issued once, a
    bucket is bound to the provider's region. It serves as the concrete
    provider of the examples; the properties themselves are stated for every
    [Provider]. *)

Module FakeCloud.

Record role := Role {
    attached : list string;          (* managed policy ARNs *)
    inline : list string             (* inline policy names *)
  }.

Record profile := Profile {
    profile_arn : string;
    profile_role : option string
  }.

Record t := Cloud {
    region : string;
    roles : gmap string role;
    profiles : gmap string profile;
    key_pairs : gmap string string;  (* key name -> key material *)
    issued : nat;                    (* key materials and instance ids issued *)
    groups : gset string;            (* security group ids *)
    instances : list instance;       (* as DescribeInstances lists them *)
    buckets : gmap string (option string)   (* bucket -> policy text *)
  }.

Definition fault (code operation : string) : client_error :=
  ClientErr code "" operation.

Definition set_roles (s : t) (r : gmap string role) : t :=
  Cloud (region s) r (profiles s) (key_pairs s) (issued s) (groups s)
        (instances s) (buckets s).

Definition set_profiles (s : t) (p : gmap string profile) : t :=
  Cloud (region s) (roles s) p (key_pairs s) (issued s) (groups s)
        (instances s) (buckets s).

Definition set_key_pairs (s : t) (k : gmap string string) (n : nat) : t :=
  Cloud (region s) (roles s) (profiles s) k n (groups s)
        (instances s) (buckets s).

Definition set_instances (s : t) (i : list instance) (n : nat) : t :=
  Cloud (region s) (roles s) (profiles s) (key_pairs s) n (groups s)
        i (buckets s).

Definition set_buckets (s : t) (b : gmap string (option string)) : t :=
  Cloud (region s) (roles s) (profiles s) (key_pairs s) (issued s) (groups s)
        (instances s) b.

Definition remove (x : string) (l : list string) : list string :=
  List.filter (fun y => negb (String.eqb x y)) l.

Definition mem (x : string) (l : list string) : bool :=
  existsb (String.eqb x) l.

(** The names of the profiles that hold [r]. *)
Definition profiles_of (s : t) (r : string) : list string :=
  map fst (List.filter
             (fun kv => bool_decide (profile_role (snd kv) = Some r))
             (map_to_list (profiles s))).

Definition step (c : api_call) (s : t) : (client_error + response c) * t :=
  match c return (client_error + response c) * t with
  | ListAttachedRolePolicies r =>
      match roles s !! r with
      | Some ro => (inr (attached ro), s)
      | None => (inl (fault "NoSuchEntity" "ListAttachedRolePolicies"), s)
      end
  | DetachRolePolicy r a =>
      match roles s !! r with
      | Some ro =>
          if mem a (attached ro)
          then (inr tt,
                set_roles s (<[r := Role (remove a (attached ro)) (inline ro)]>
                               (roles s)))
          else (inl (fault "NoSuchEntity" "DetachRolePolicy"), s)
      | None => (inl (fault "NoSuchEntity" "DetachRolePolicy"), s)
      end
  | ListInstanceProfilesForRole r =>
      match roles s !! r with
      | Some _ => (inr (profiles_of s r), s)
      | None => (inl (fault "NoSuchEntity" "ListInstanceProfilesForRole"), s)
      end
  | RemoveRoleFromInstanceProfile p r =>
      match profiles s !! p with
      | Some pr =>
          if bool_decide (profile_role pr = Some r)
          then (inr tt,
                set_profiles s (<[p := Profile (profile_arn pr) None]>
                                  (profiles s)))
          else (inl (fault "NoSuchEntity" "RemoveRoleFromInstanceProfile"), s)
      | None => (inl (fault "NoSuchEntity" "RemoveRoleFromInstanceProfile"), s)
      end
  | ListRolePolicies r =>
      match roles s !! r with
      | Some ro => (inr (inline ro), s)
      | None => (inl (fault "NoSuchEntity" "ListRolePolicies"), s)
      end
  | DeleteRolePolicy r p =>
      match roles s !! r with
      | Some ro =>
          if mem p (inline ro)
          then (inr tt,
                set_roles s (<[r := Role (attached ro) (remove p (inline ro))]>
                               (roles s)))
          else (inl (fault "NoSuchEntity" "DeleteRolePolicy"), s)
      | None => (inl (fault "NoSuchEntity" "DeleteRolePolicy"), s)
      end
  | DeleteRole r =>
      match roles s !! r with
      | Some (Role [] []) =>
          match profiles_of s r with
          | [] => (inr tt, set_roles s (delete r (roles s)))
          | _ => (inl (fault "DeleteConflict" "DeleteRole"), s)
          end
      | Some _ => (inl (fault "DeleteConflict" "DeleteRole"), s)
      | None => (inl (fault "NoSuchEntity" "DeleteRole"), s)
      end
  | CreateInstanceProfile p path =>
      match profiles s !! p with
      | Some _ => (inl (fault "EntityAlreadyExists" "CreateInstanceProfile"), s)
      | None =>
          let arn := "arn:aws:iam::123456789012:instance-profile" +:+ path +:+ p in
          (inr arn, set_profiles s (<[p := Profile arn None]> (profiles s)))
      end
  | AddRoleToInstanceProfile p r =>
      match profiles s !! p, roles s !! r with
      | Some (Profile arn None), Some _ =>
          (inr tt, set_profiles s (<[p := Profile arn (Some r)]> (profiles s)))
      | Some (Profile _ (Some _)), Some _ =>
          (inl (fault "LimitExceeded" "AddRoleToInstanceProfile"), s)
      | _, _ => (inl (fault "NoSuchEntity" "AddRoleToInstanceProfile"), s)
      end
  | GetInstanceProfile p =>
      match profiles s !! p with
      | Some pr => (inr (profile_arn pr), s)
      | None => (inl (fault "NoSuchEntity" "GetInstanceProfile"), s)
      end
  | DeleteKeyPair k =>
      (inr tt, set_key_pairs s (delete k (key_pairs s)) (issued s))
  | CreateKeyPair k =>
      match key_pairs s !! k with
      | Some _ => (inl (fault "InvalidKeyPair.Duplicate" "CreateKeyPair"), s)
      | None =>
          let material := "PRIVATE KEY " +:+ pretty (issued s) in
          (inr material,
           set_key_pairs s (<[k := material]> (key_pairs s)) (S (issued s)))
      end
  | RunInstances _ _ _ _ _ sgs k =>
      if negb (forallb (fun g => bool_decide (g ∈ groups s)) sgs)
      then (inl (fault "InvalidGroup.NotFound" "RunInstances"), s)
      else
        match key_pairs s !! k with
        | None => (inl (fault "InvalidKeyPair.NotFound" "RunInstances"), s)
        | Some _ =>
            let i := Instance ("i-" +:+ pretty (issued s)) "pending" in
            (inr [i], set_instances s (i :: instances s) (S (issued s)))
        end
  | DescribeInstances => (inr (instances s), s)
  | CreateBucket b loc =>
      if negb (String.eqb loc (region s))
      then (inl (fault "IllegalLocationConstraintException" "CreateBucket"), s)
      else
        match buckets s !! b with
        | Some _ => (inl (fault "BucketAlreadyOwnedByYou" "CreateBucket"), s)
        | None => (inr tt, set_buckets s (<[b := None]> (buckets s)))
        end
  | WaitUntilBucketExists b =>
      match buckets s !! b with
      | Some _ => (inr tt, s)
      | None => (inl (fault "404" "HeadBucket"), s)
      end
  | PutBucketPolicy b text =>
      match buckets s !! b with
      | Some _ => (inr tt, set_buckets s (<[b := Some text]> (buckets s)))
      | None => (inl (fault "NoSuchBucket" "PutBucketPolicy"), s)
      end
  | GetBucketPolicy b =>
      match buckets s !! b with
      | Some (Some text) => (inr text, s)
      | Some None => (inl (fault "NoSuchBucketPolicy" "GetBucketPolicy"), s)
      | None => (inl (fault "NoSuchBucket" "GetBucketPolicy"), s)
      end
  end.

#[global] Instance provider : Provider t := {| request := step |}.

(** An account with nothing in it. *)
Definition empty (region : string) : t :=
  Cloud region ∅ ∅ ∅ 0 ∅ [] ∅.

(** The world of a process that has done nothing yet. *)
Definition world (s : t) : World t :=
  MkWorld s ∅ ∅ (fun n => N.of_nat n) 0 (region s) [].

(** An account in use: a role with two managed policies, one inline
    policy and a seat in an instance profile; a key pair; a security
    group; a running instance; a bucket without policy. *)
Definition sample : t :=
  Cloud "eu-west-2"
    {[ "svc-role" := Role ["arn:aws:iam::aws:policy/p1";
                           "arn:aws:iam::aws:policy/p2"] ["inline-1"] ]}
    {[ "svc-profile" :=
         Profile "arn:aws:iam::123456789012:instance-profile/convex/svc-profile"
                 (Some "svc-role");
       "idle-profile" :=
         Profile "arn:aws:iam::123456789012:instance-profile/convex/idle-profile"
                 None ]}
    {[ "deploy-key" := "PRIVATE KEY 3" ]} 7 {[ "sg-1" ]}
    [Instance "i-2" "running"] {[ "reports" := None ]}.

(** The same process with a key file left over from an earlier run. *)
Definition sample_world : World t :=
  MkWorld sample {[ "/tmp/deploy.pem" := "PRIVATE KEY 3" ]} ∅
          (fun n => N.of_nat n) 0 "eu-west-2" [].

(** A process whose random source repeats itself. *)
Definition stuck_world : World t :=
  MkWorld (empty "eu-west-2") ∅ ∅ (fun _ => 0%N) 0 "eu-west-2" [].

End FakeCloud.

(** * The other methods

    The methods of the three classes that the sections above leave out, and
    the requests they send. These requests are not journalled in the trace:
    what was asked of the provider shows in the state it is left in. *)

Inductive more_api_call :=
(* IAM *)
| CreateRole (path role_name document description : string)
             (max_session_duration : Z)
| CreatePolicy (policy_name document : string)
| AttachRolePolicy (policy_arn role_name : string)
(* S3 *)
| HeadBucket (bucket : string)
| ListBuckets
| DeleteBucket (bucket : string)
| WaitUntilBucketNotExists (bucket : string).

Definition more_response (c : more_api_call) : Type :=
  match c with
  | CreateRole _ _ _ _ _ => string     (* ['Role']['Arn'] *)
  | CreatePolicy _ _ => string         (* ['Policy']['Arn'] *)
  | ListBuckets => list string         (* the ["Name"] of each of ['Buckets'] *)
  | _ => unit
  end.

Class MoreProvider (Cloud : Type) := {
  more_request :
    forall c : more_api_call, Cloud -> (client_error + more_response c) * Cloud
}.

Definition more_exn_of (c : more_api_call) (ce : client_error) : exn :=
  match c with
  | WaitUntilBucketNotExists _ => WaiterError "BucketNotExists"
  | _ => ClientError ce
  end.

Section MoreRuntime.
Context {Cloud : Type} `{MoreProvider Cloud}.

(** One of the remaining requests. *)
Definition call_more {L} (c : more_api_call) : M Cloud L (more_response c) :=
  fun l w =>
    let '(r, c') := more_request c (cloud w) in
    match r with
    | inl ce => (Raise (more_exn_of c ce), l, with_cloud c' w)
    | inr a => (Return a, l, with_cloud c' w)
    end.

End MoreRuntime.

(** [n] copies of [s] in a row: [s * n]; none when [n] is not positive. *)
Fixpoint repeat_string (n : nat) (s : string) : string :=
  match n with
  | O => ""
  | S n' => s +:+ repeat_string n' s
  end.

(** ** IAMAdmin.py: roles and policies *)

Module IAMAdminRoles.

(** The [trust_policy] of [create_role]. *)
Definition trust_policy : Json.t :=
  Json.Obj
    [("Version", Json.Str "2012-10-17");
     ("Statement",
      Json.Arr
        [Json.Obj
           [("Sid", Json.Str "");
            ("Effect", Json.Str "Allow");
            ("Principal", Json.Obj [("Service", Json.Str "ec2.amazonaws.com")]);
            ("Action", Json.Str "sts:AssumeRole")]])].

Section Methods.
Context {Cloud : Type} `{MoreProvider Cloud}.

(** [create_role(self, role_name, role_description)] *)
Definition create_role (self : IAMAdmin.t) (role_name role_description : string)
  : World Cloud -> outcome string * World Cloud :=
  run tt (try_except_else
    (let description := role_description in
     role_arn <- call_more (CreateRole ("/" +:+ IAMAdmin.path self +:+ "/")
                              role_name (Json.dumps trust_policy)
                              description 3600) ;;
     log DEBUG " Created IAM role: %s" [LStr role_arn] ;;
     ret role_arn)
    (fun error =>
       log_exception (LStr "Couldn't create role named '%s' in region=%s.")
                     [LStr role_name; LStr (IAMAdmin.region self)] ;;
       raise (ClientError error))
    (fun role_arn => ret role_arn)).

(** [create_policy(self, policy_content, policy_name, role_name)]; the
    response that is returned is identified by the ARN it carries. *)
Definition create_policy (self : IAMAdmin.t) (policy_content : Json.t)
    (policy_name role_name : string)
  : World Cloud -> outcome string * World Cloud :=
  run tt (try_except_else
    (response <- call_more (CreatePolicy policy_name
                              (Json.dumps policy_content)) ;;
     let policy_arn := response in
     call_more (AttachRolePolicy policy_arn role_name) ;;
     log DEBUG " Created IAM policy: %s, arn: %s" [LResponse; LStr policy_arn] ;;
     ret response)
    (fun error =>
       log_exception
         (LStr "Couldn't create policy named '%s' for role_name %s.")
         [LStr policy_name; LStr role_name] ;;
       log_exception (LStr "Error:  %s") [LStr (repr_error error)] ;;
       raise (ClientError error))
    (fun response => ret response)).

End Methods.
End IAMAdminRoles.

(** ** StorageBucket.py: files and buckets *)

Module StorageBucketFiles.

Section Methods.
Context {Cloud : Type} `{MoreProvider Cloud}.

(** [uuid.uuid4().hex[:6]] *)
Definition hex6 (u : N) : string :=
  string_of_list_ascii (take 6 (Uuid.hex_digits 32 u)).

(** [create_temp_file(self, size, file_name, file_content)] *)
Definition create_temp_file (self : StorageBucket.t) (size : Z)
    (file_name file_content : string)
  : World Cloud -> outcome string * World Cloud :=
  run tt (
    u <- Uuid.uuid4 ;;
    let random_file_name := hex6 u +:+ file_name in
    write_file random_file_name (repeat_string (Z.to_nat size) file_content) ;;
    ret random_file_name).

(** [list_buckets(self)]: no handler around the request. *)
Definition list_buckets (self : StorageBucket.t)
  : World Cloud -> outcome unit * World Cloud :=
  run tt (
    buckets <- call_more ListBuckets ;;
    print ["Existing buckets:"] ;;
    for_each buckets (fun bucket => print ["  " +:+ bucket]) ;;
    ret tt).

(** [bucket_exists(self, bucket_name)] *)
Definition bucket_exists (self : StorageBucket.t) (bucket_name : string)
  : World Cloud -> outcome bool * World Cloud :=
  run tt (
    exists_ <- try_except_else
      (call_more (HeadBucket bucket_name) ;;
       log INFO "Bucket %s exists." [LStr bucket_name] ;;
       ret true)
      (fun _ =>
         log WARNING "Bucket %s doesn't exist or you don't have access to it."
             [LStr bucket_name] ;;
         ret false)
      (fun exists_ => ret exists_) ;;
    ret exists_).

(** [delete_bucket(self, bucket)], for the bucket resource named [bucket]. *)
Definition delete_bucket (self : StorageBucket.t) (bucket : string)
  : World Cloud -> outcome unit * World Cloud :=
  run tt (try_except_else
    (call_more (DeleteBucket bucket) ;;
     call_more (WaitUntilBucketNotExists bucket) ;;
     log INFO "Bucket %s successfully deleted." [LStr bucket])
    (fun error =>
       log_exception (LStr "Couldn't delete bucket %s.") [LStr bucket] ;;
       raise (ClientError error))
    (fun _ => ret tt)).

End Methods.
End StorageBucketFiles.

(** ** A provider whose reads lag behind its writes

    The in-memory provider, except that what was just created does not show
    yet: the listing of instances is still empty, and the bucket waiter gives
    up. *)

Module Lagging.

Record t := Lag { fresh : FakeCloud.t }.

Definition step (c : api_call) (s : t) : (client_error + response c) * t :=
  match c return (client_error + response c) * t with
  | DescribeInstances => (inr [], s)
  | WaitUntilBucketExists b => (inl (FakeCloud.fault "404" "HeadBucket"), s)
  | c' => let (r, s') := FakeCloud.step c' (fresh s) in (r, Lag s')
  end.

#[global] Instance provider : Provider t := {| request := step |}.

Definition sample_world : World t :=
  MkWorld (Lag FakeCloud.sample) ∅ ∅ (fun n => N.of_nat n) 0 "eu-west-2" [].

End Lagging.

(** ** An in-memory provider for all requests

    The in-memory provider, with a store of managed policies, answering the
    remaining requests as well. *)

Module Account.

Record t := Acct {
  core : FakeCloud.t;
  policies : gmap string string    (* policy ARN -> document *)
}.

Definition set_core (s : t) (c : FakeCloud.t) : t := Acct c (policies s).

Definition step (c : api_call) (s : t) : (client_error + response c) * t :=
  let (r, c') := FakeCloud.step c (core s) in (r, set_core s c').

Definition step_more (c : more_api_call) (s : t)
  : (client_error + more_response c) * t :=
  match c return (client_error + more_response c) * t with
  | CreateRole path role_name _ _ _ =>
      match FakeCloud.roles (core s) !! role_name with
      | Some _ => (inl (FakeCloud.fault "EntityAlreadyExists" "CreateRole"), s)
      | None =>
          (inr ("arn:aws:iam::123456789012:role" +:+ path +:+ role_name),
           set_core s (FakeCloud.set_roles (core s)
                         (<[role_name := FakeCloud.Role [] []]>
                            (FakeCloud.roles (core s)))))
      end
  | CreatePolicy policy_name document =>
      let arn := "arn:aws:iam::123456789012:policy/" +:+ policy_name in
      match policies s !! arn with
      | Some _ => (inl (FakeCloud.fault "EntityAlreadyExists" "CreatePolicy"), s)
      | None => (inr arn, Acct (core s) (<[arn := document]> (policies s)))
      end
  | AttachRolePolicy policy_arn role_name =>
      match policies s !! policy_arn, FakeCloud.roles (core s) !! role_name with
      | Some _, Some ro =>
          (inr tt,
           set_core s (FakeCloud.set_roles (core s)
                         (<[role_name :=
                              FakeCloud.Role
                                (FakeCloud.remove policy_arn (FakeCloud.attached ro)
                                 ++ [policy_arn])
                                (FakeCloud.inline ro)]>
                            (FakeCloud.roles (core s)))))
      | _, _ => (inl (FakeCloud.fault "NoSuchEntity" "AttachRolePolicy"), s)
      end
  | HeadBucket b =>
      match FakeCloud.buckets (core s) !! b with
      | Some _ => (inr tt, s)
      | None => (inl (FakeCloud.fault "404" "HeadBucket"), s)
      end
  | ListBuckets => (inr (map fst (map_to_list (FakeCloud.buckets (core s)))), s)
  | DeleteBucket b =>
      match FakeCloud.buckets (core s) !! b with
      | Some _ =>
          (inr tt,
           set_core s (FakeCloud.set_buckets (core s)
                         (delete b (FakeCloud.buckets (core s)))))
      | None => (inl (FakeCloud.fault "NoSuchBucket" "DeleteBucket"), s)
      end
  | WaitUntilBucketNotExists b =>
      match FakeCloud.buckets (core s) !! b with
      | Some _ => (inl (FakeCloud.fault "200" "HeadBucket"), s)
      | None => (inr tt, s)
      end
  end.

#[global] Instance provider : Provider t := {| request := step |}.
#[global] Instance more_provider : MoreProvider t :=
  {| more_request := step_more |}.

(** The sample account, with no managed policy of its own. *)
Definition sample : t := Acct FakeCloud.sample ∅.

Definition sample_world : World t :=
  MkWorld sample ∅ ∅ (fun n => N.of_nat n) 0 "eu-west-2" [].

(** A process that may not write in its working directory. *)
Definition locked_world : World t :=
  MkWorld sample ∅ {[ "/etc/deploy.pem" ]} (fun n => N.of_nat n) 0
          "eu-west-2" [].

(** The sample account after someone stored a policy that is not JSON. *)
Definition garbled_world : World t :=
  MkWorld (Acct (FakeCloud.set_buckets FakeCloud.sample
                   {[ "reports" := Some "Version: 2012-10-17" ]}) ∅)
          ∅ ∅ (fun n => N.of_nat n) 0 "eu-west-2" [].

End Account.

(** A character of a UUID's text: a digit, a letter from [a] to [f], or a
    hyphen. All of them may appear in a bucket name. *)
Definition uuid_char (c : ascii) : bool :=
  let n := N_of_ascii c in
  ((48 <=? n) && (n <=? 57) || (97 <=? n) && (n <=? 102) || (n =? 45))%N.

(** The 24 bits of a 16-byte draw, read big-endian, that come first. *)
Definition leading_bits (n : N) : N := ((n mod 2 ^ 128) / 2 ^ 104)%N.

(** * Properties *)

(** ** A weakest-precondition reading of method bodies *)

Definition wp {Cloud L A} (m : M Cloud L A) (l : L) (w : World Cloud)
    (Q : outcome A -> L -> World Cloud -> Prop) : Prop :=
  let '(res, l', w') := m l w in Q res l' w'.

(** What may follow a value in the text [dumps] writes. *)
Definition delimited (rest : Json.text) : Prop :=
  match rest with
  | [] => True
  | c :: _ => c = ","%char \/ c = "]"%char \/ c = "}"%char
  end.

(** A character that starts a value or a key: not white space, and not a
    closing bracket. *)
Definition opens (c : ascii) : Prop :=
  Json.is_ws c = false /\ Ascii.eqb c "]" = false /\ Ascii.eqb c "}" = false.

(** The text of one member of a dictionary. *)
Definition member_text (kv : string * Json.t) : Json.text :=
  Json.dumps_str (fst kv) ++ ":"%char :: " "%char :: Json.dumps_text (snd kv).

(** Scanning the text of [v] gives [v] back, with fuel to spare. *)
Definition scans (v : Json.t) : Prop :=
  forall fuel rest,
    Json.size v <= fuel -> delimited rest ->
    Json.scan_once fuel (Json.dumps_text v ++ rest) = Some (v, rest).

(** The number a string of hexadecimal digits reads as. *)
Definition hex_number (l : list ascii) : N :=
  fold_left (fun acc c => (16 * acc + default 0 (Json.hex_value c))%N) l 0%N.

(** ** Reading a trace *)

Definition is_api (e : event) : bool :=
  match e with EApi _ _ => true | _ => false end.

(** The provider requests of a trace, in order, with their results. *)
Definition api_events (tr : list event) : list event := List.filter is_api tr.

Definition call_of (e : event) : option api_call :=
  match e with EApi c _ => Some c | _ => None end.

(** The error a request was answered with, if it failed. *)
Definition failure_of (e : event) : option client_error :=
  match e with EApi _ (inl ce) => Some ce | _ => None end.

Definition is_log (e : event) : bool :=
  match e with ELog _ _ _ _ => true | _ => false end.

Definition is_write (e : event) : bool :=
  match e with EWrite _ _ => true | _ => false end.

(** The line [create_instance] logs for each listed instance. *)
Definition instance_line (i : instance) : event :=
  ELog DEBUG false (LStr "Instance id : %s instance state : ")
       [LStr (id i); LStr (state i)].

(** ** The teardown plan of [delete_role] *)

(** The requests of a complete teardown, all successful: the three listings
    answer [attached], [profiles] and [inline]. *)
Definition teardown (role : string) (attached profiles inline : list string)
  : list event :=
  EApi (ListAttachedRolePolicies role) (inr attached)
  :: map (fun a => EApi (DetachRolePolicy role a) (inr tt)) attached
  ++ EApi (ListInstanceProfilesForRole role) (inr profiles)
  :: map (fun p => EApi (RemoveRoleFromInstanceProfile p role) (inr tt)) profiles
  ++ EApi (ListRolePolicies role) (inr inline)
  :: map (fun p => EApi (DeleteRolePolicy role p) (inr tt)) inline
  ++ [EApi (DeleteRole role) (inr tt)].

(** [evs] is a run of [plan] cut short: the requests before the failing one
    are the planned ones, all successful, the failing one is the next planned
    request, answered with [ce], and nothing follows it. *)
Definition aborted (plan evs : list event) (ce : client_error) : Prop :=
  exists pre e post c,
    plan = pre ++ e :: post /\ call_of e = Some c /\
    evs = pre ++ [EApi c (inl ce)].

(** Two descriptions of one world. *)
Ltac world_eq :=
  cbv [advance emit with_cloud bind ret raise load store log log_exception
       print exn_of cloud files denied urandom drawn session_region trace
       InstanceManagement.instances InstanceManagement.instance_id
       InstanceManagement.first_instance];
  rewrite <- ?app_assoc; reflexivity.

(** ** The text of a UUID *)

Section UuidFacts.

Lemma hex_value_digit (d : N) :
  (d < 16)%N -> Json.hex_value (hex_digit d) = Some d.
Proof.
  intros Hd. destruct d as [|p]; [reflexivity|].
  do 4 (destruct p as [p|p|]; try reflexivity; try lia).
Qed.

Lemma hex_digits_length (k : nat) (n : N) : length (Uuid.hex_digits k n) = k.
Proof.
  revert n. induction k as [|k IH]; intros n; [reflexivity|].
  cbn [Uuid.hex_digits]. rewrite length_app, IH. cbn. lia.
Qed.

Lemma hex_number_digits (k : nat) (n : N) :
  hex_number (Uuid.hex_digits k n) = (n mod 16 ^ N.of_nat k)%N.
Proof.
  revert n. induction k as [|k IH]; intros n.
  - cbn. rewrite N.mod_1_r. reflexivity.
  - cbn [Uuid.hex_digits]. unfold hex_number in *.
    rewrite fold_left_app, IH. cbn [fold_left].
    rewrite hex_value_digit by (apply N.mod_lt; lia). cbn [default].
    rewrite Nat2N.inj_succ, N.pow_succ_r'.
    rewrite (N.Div0.mod_mul_r n 16). apply N.add_comm.
Qed.

Lemma string_of_list_ascii_length (l : list ascii) :
  String.length (string_of_list_ascii l) = length l.
Proof. induction l as [|c l IH]; [reflexivity|]. cbn. rewrite IH. reflexivity. Qed.

Lemma string_length_app (a b : string) :
  String.length (a +:+ b) = String.length a + String.length b.
Proof.
  induction a as [|c a IH]; [reflexivity|].
  change (S (String.length (a +:+ b)) = S (String.length a + String.length b)).
  rewrite IH. reflexivity.
Qed.

Lemma string_prefix_app (a b : string) : String.prefix a (a +:+ b) = true.
Proof.
  induction a as [|c a IH]; [destruct b; reflexivity|].
  change (String.prefix (String c a) (String c (a +:+ b)) = true).
  cbn [String.prefix]. destruct (ascii_dec c c); [exact IH|contradiction].
Qed.

Lemma string_app_inj (a b c : string) : a +:+ b = a +:+ c -> b = c.
Proof.
  induction a as [|x a IH]; [exact (fun e => e)|].
  change (String x (a +:+ b) = String x (a +:+ c) -> b = c).
  intros [= E]. auto.
Qed.

Lemma string_of_list_ascii_inj (a b : list ascii) :
  string_of_list_ascii a = string_of_list_ascii b -> a = b.
Proof.
  intros E. rewrite <- (list_ascii_of_string_of_list_ascii a), E.
  apply list_ascii_of_string_of_list_ascii.
Qed.

Lemma uuid_str_length (i : N) : String.length (Uuid.str i) = 36.
Proof.
  unfold Uuid.str. rewrite string_of_list_ascii_length.
  rewrite !length_app, !length_take, !length_drop, !hex_digits_length. reflexivity.
Qed.

(** [str] names the low 128 bits of its argument without loss. *)
Lemma uuid_str_inj (i j : N) :
  Uuid.str i = Uuid.str j -> (i mod 2 ^ 128 = j mod 2 ^ 128)%N.
Proof.
  unfold Uuid.str. intros E. apply string_of_list_ascii_inj in E.
  assert (Hhex : Uuid.hex_digits 32 i = Uuid.hex_digits 32 j).
  { set (a := Uuid.hex_digits 32 i) in *. set (b := Uuid.hex_digits 32 j) in *.
    assert (La : length a = 32) by apply hex_digits_length.
    assert (Lb : length b = 32) by apply hex_digits_length.
    apply app_inj_1 in E as [E1 E]; [|rewrite !length_take; lia].
    apply app_inj_1 in E as [_ E]; [|reflexivity].
    apply app_inj_1 in E as [E2 E]; [|rewrite !length_take, !length_drop; lia].
    apply app_inj_1 in E as [_ E]; [|reflexivity].
    apply app_inj_1 in E as [E3 E]; [|rewrite !length_take, !length_drop; lia].
    apply app_inj_1 in E as [_ E]; [|reflexivity].
    apply app_inj_1 in E as [E4 E]; [|rewrite !length_take, !length_drop; lia].
    apply app_inj_1 in E as [_ E5]; [|reflexivity].
    rewrite <- (take_drop 8 a), <- (take_drop 8 b), E1. f_equal.
    rewrite <- (take_drop 4 (drop 8 a)), <- (take_drop 4 (drop 8 b)), E2. f_equal.
    rewrite !drop_drop. cbn [Nat.add].
    rewrite <- (take_drop 4 (drop 12 a)), <- (take_drop 4 (drop 12 b)), E3. f_equal.
    rewrite !drop_drop. cbn [Nat.add].
    rewrite <- (take_drop 4 (drop 16 a)), <- (take_drop 4 (drop 16 b)), E4. f_equal.
    rewrite !drop_drop. exact E5. }
  apply (f_equal hex_number) in Hhex. rewrite !hex_number_digits in Hhex.
  exact Hhex.
Qed.

Lemma log2_lt_of_lt_pow2 (a n : N) :
  (0 < n -> a < 2 ^ n -> N.log2 a < n)%N.
Proof.
  intros Hn Ha. destruct (N.eq_dec a 0%N) as [->|Hnz]; [exact Hn|].
  apply N.log2_lt_pow2; [lia|exact Ha].
Qed.

Lemma lor_lt_pow2 (a b n : N) :
  (0 < n -> a < 2 ^ n -> b < 2 ^ n -> N.lor a b < 2 ^ n)%N.
Proof.
  intros Hn Ha Hb.
  destruct (N.eq_dec (N.lor a b) 0%N) as [->|Hnz].
  - apply N.neq_0_lt_0, N.pow_nonzero. discriminate.
  - apply N.log2_lt_pow2; [lia|]. rewrite N.log2_lor.
    apply N.max_lub_lt; apply log2_lt_of_lt_pow2; assumption.
Qed.

Lemma uuid4_int_bound (n : N) : (Uuid.uuid4_int n < 2 ^ 128)%N.
Proof.
  unfold Uuid.uuid4_int.
  apply lor_lt_pow2; [reflexivity| |reflexivity].
  eapply N.le_lt_trans; [apply N.ldiff_le_l|].
  apply lor_lt_pow2; [reflexivity| |reflexivity].
  eapply N.le_lt_trans; [apply N.ldiff_le_l|].
  apply N.mod_lt. discriminate.
Qed.

Lemma uuid4_str_inj (m n : N) :
  Uuid.str (Uuid.uuid4_int m) = Uuid.str (Uuid.uuid4_int n) ->
  Uuid.uuid4_int m = Uuid.uuid4_int n.
Proof.
  intros E. apply uuid_str_inj in E.
  rewrite !N.mod_small in E by apply uuid4_int_bound. exact E.
Qed.

End UuidFacts.

(** ** json: reading back what was written *)

Section JsonFacts.

(** *** Strings *)

Lemma scanstring_escape (c : ascii) (tail acc : list ascii) :
  Json.scanstring (Json.escape c ++ tail) acc = Json.scanstring tail (c :: acc).
Proof.
  destruct c as [[] [] [] [] [] [] [] []]; reflexivity.
Qed.

Lemma scanstring_escaped (cs tail acc : list ascii) :
  Json.scanstring (flat_map Json.escape cs ++ Json.quote :: tail) acc
  = Some (string_of_list_ascii (rev acc ++ cs), tail).
Proof.
  revert acc. induction cs as [|c cs IH]; intros acc.
  - cbn. rewrite app_nil_r. reflexivity.
  - cbn [flat_map]. rewrite <- app_assoc, scanstring_escape, IH.
    cbn [rev]. rewrite <- app_assoc. reflexivity.
Qed.

Lemma scanstring_dumps_str (s : string) (tail : list ascii) :
  exists body, Json.dumps_str s ++ tail = Json.quote :: body /\
               Json.scanstring body [] = Some (s, tail).
Proof.
  exists (flat_map Json.escape (list_ascii_of_string s) ++ Json.quote :: tail).
  split.
  - unfold Json.dumps_str. cbn [app]. rewrite <- app_assoc. reflexivity.
  - rewrite scanstring_escaped. cbn [rev app].
    rewrite string_of_list_ascii_of_string. reflexivity.
Qed.

(** *** Numbers *)

Lemma digits_of_uint (d : Decimal.uint) :
  Forall (fun c => Json.is_digit c = true)
         (list_ascii_of_string (NilEmpty.string_of_uint d)).
Proof. induction d; cbn; constructor; try reflexivity; assumption. Qed.

Lemma span_digits_app (ds rest : list ascii) :
  Forall (fun c => Json.is_digit c = true) ds ->
  match rest with [] => True | c :: _ => Json.is_digit c = false end ->
  Json.span_digits (ds ++ rest) = (ds, rest).
Proof.
  intros Hds Hrest. induction Hds as [|c ds Hc _ IH].
  - destruct rest as [|c rest]; [reflexivity|]. cbn. rewrite Hrest. reflexivity.
  - cbn. rewrite Hc, IH. reflexivity.
Qed.

Lemma delimited_not_digit (rest : Json.text) :
  delimited rest ->
  match rest with [] => True | c :: _ => Json.is_digit c = false end.
Proof. destruct rest as [|c rest]; [trivial|]. intros [->|[->| ->]]; reflexivity. Qed.

Lemma to_uint_head (p : positive) :
  exists c cs, list_ascii_of_string (NilEmpty.string_of_uint (Pos.to_uint p)) = c :: cs
               /\ N_of_ascii c <> 48%N.
Proof.
  assert (Hnorm : Decimal.unorm (Pos.to_uint p) = Pos.to_uint p).
  { rewrite <- (DecimalPos.Unsigned.to_of (Pos.to_uint p)).
    rewrite DecimalPos.Unsigned.of_to. reflexivity. }
  pose proof (DecimalPos.Unsigned.to_uint_nonzero p) as Hnz.
  pose proof (DecimalPos.Unsigned.to_uint_nonnil p) as Hnn.
  destruct (Pos.to_uint p) as [|d|d|d|d|d|d|d|d|d|d] eqn:E;
    try contradiction;
    try (eexists _, _; split; [reflexivity|discriminate]).
  exfalso. unfold Decimal.unorm in Hnorm. rewrite nzhead_D0 in Hnorm.
  destruct (Decimal.nzhead d) eqn:Ehd; try discriminate.
  - injection Hnorm as <-. apply Hnz. reflexivity.
  - apply (nzhead_nonzero d d). rewrite Ehd. congruence.
Qed.

Lemma scan_nat_positive (p : positive) (rest : Json.text) :
  delimited rest ->
  Json.scan_nat
    (list_ascii_of_string (NilEmpty.string_of_uint (Pos.to_uint p)) ++ rest)
  = Some (Npos p, rest).
Proof.
  intros Hrest. unfold Json.scan_nat.
  rewrite span_digits_app
    by (try apply digits_of_uint; apply delimited_not_digit, Hrest).
  destruct (to_uint_head p) as (c & cs & E & Hc). rewrite E.
  apply N.eqb_neq in Hc. rewrite Hc. cbn [andb].
  rewrite <- E, string_of_list_ascii_of_string, NilEmpty.usu.
  cbn [option_map]. unfold N.of_uint. rewrite DecimalPos.Unsigned.of_to.
  destruct rest as [|c' rest]; [reflexivity|].
  destruct Hrest as [->|[->| ->]]; reflexivity.
Qed.

Lemma scan_nat_zero (rest : Json.text) :
  delimited rest -> Json.scan_nat ("0"%char :: rest) = Some (0%N, rest).
Proof.
  intros Hrest. unfold Json.scan_nat.
  change ("0"%char :: rest) with (["0"%char] ++ rest).
  rewrite (span_digits_app ["0"%char] rest)
    by (try (repeat constructor); apply delimited_not_digit, Hrest).
  destruct rest as [|c' rest]; [reflexivity|].
  destruct Hrest as [->|[->| ->]]; reflexivity.
Qed.

(** *** Values *)

Lemma json_ind (P : Json.t -> Prop) :
  P Json.Null ->
  (forall b, P (Json.Bool b)) ->
  (forall z, P (Json.Int z)) ->
  (forall s, P (Json.Str s)) ->
  (forall items, Forall P items -> P (Json.Arr items)) ->
  (forall members, Forall (fun kv => P (snd kv)) members -> P (Json.Obj members)) ->
  forall v, P v.
Proof.
  intros HNull HBool HInt HStr HArr HObj. fix IH 1.
  intros [|b|z|s|items|members].
  - exact HNull.
  - apply HBool.
  - apply HInt.
  - apply HStr.
  - apply HArr. induction items as [|x xs IHxs]; constructor; [apply IH|exact IHxs].
  - apply HObj. induction members as [|[k x] xs IHxs]; constructor;
      [apply IH|exact IHxs].
Qed.

Lemma digit_opens (c : ascii) : Json.is_digit c = true -> opens c.
Proof.
  destruct c as [[] [] [] [] [] [] [] []]; try discriminate;
    intros _; repeat split.
Qed.

Lemma dumps_str_head (s : string) :
  exists tl, Json.dumps_str s = Json.quote :: tl.
Proof. eexists. reflexivity. Qed.

Lemma quote_opens : opens Json.quote.
Proof. repeat split. Qed.

Lemma dumps_text_head (v : Json.t) :
  exists c tl, Json.dumps_text v = c :: tl /\ opens c.
Proof.
  destruct v as [|[]|[|p|p]|s|items|members];
    try (eexists _, _; split; [reflexivity|repeat split]).
  pose proof (digits_of_uint (Pos.to_uint p)) as Hd.
  destruct (to_uint_head p) as (c & cs & E & _).
  exists c, cs. split; [exact E|]. cbn in E. rewrite E in Hd.
  apply digit_opens. inversion Hd. assumption.
Qed.

Lemma skip_ws_opens (c : ascii) (s : Json.text) :
  opens c -> Json.skip_ws (c :: s) = c :: s.
Proof. intros (Hws & _). cbn. rewrite Hws. reflexivity. Qed.

Lemma skip_ws_delimited (rest : Json.text) :
  delimited rest -> Json.skip_ws rest = rest.
Proof.
  destruct rest as [|c rest]; [reflexivity|].
  intros [->|[->| ->]]; reflexivity.
Qed.

Lemma skip_ws_space (s : Json.text) :
  Json.skip_ws (" "%char :: s) = Json.skip_ws s.
Proof. reflexivity. Qed.

Lemma scan_once_digit (fuel : nat) (c : ascii) (s : Json.text) :
  Json.is_digit c = true ->
  Json.scan_once (S fuel) (c :: s)
  = option_map (fun nr => (Json.Int (Z.of_N (fst nr)), snd nr))
               (Json.scan_nat (c :: s)).
Proof.
  destruct c as [[] [] [] [] [] [] [] []]; try discriminate; reflexivity.
Qed.

(** *** Dictionaries *)

Lemma dict_set_fresh (k : string) (v : Json.t) (d : list (string * Json.t)) :
  k ∉ map fst d -> Json.dict_set k v d = d ++ [(k, v)].
Proof.
  induction d as [|[k' v'] d IH]; intros Hk; [reflexivity|].
  cbn [Json.dict_set]. cbn in Hk. apply not_elem_of_cons in Hk as [Hne Hk].
  destruct (String.eqb_spec k k') as [->|_]; [contradiction|].
  rewrite IH by exact Hk. reflexivity.
Qed.

Lemma dict_fold_distinct (l d : list (string * Json.t)) :
  NoDup (map fst (d ++ l)) ->
  fold_left (fun d kv => Json.dict_set (fst kv) (snd kv) d) l d = d ++ l.
Proof.
  revert d. induction l as [|[k v] l IH]; intros d Hnd.
  - rewrite app_nil_r. reflexivity.
  - cbn [fold_left fst snd]. rewrite dict_set_fresh.
    + rewrite IH; rewrite <- app_assoc; [reflexivity|exact Hnd].
    + rewrite map_app in Hnd. apply NoDup_app in Hnd as (_ & Hd & _).
      intros Hin. apply (Hd k Hin). cbn. left.
Qed.

Lemma dict_distinct (l : list (string * Json.t)) :
  NoDup (map fst l) -> Json.dict l = l.
Proof. intros Hnd. apply (dict_fold_distinct l []). exact Hnd. Qed.

(** *** Scanning what [dumps] wrote *)

Lemma scan_items_dumps (items : list Json.t) :
  Forall scans items -> items <> [] ->
  forall fuel acc rest,
    list_sum (map (fun x => S (Json.size x)) items) <= fuel ->
    Json.scan_items fuel
      (Json.join (map Json.dumps_text items) ++ "]"%char :: rest) acc
    = Some (Json.Arr (rev acc ++ items), rest).
Proof.
  induction 1 as [|v items Hv Hitems IH]; intros Hne fuel acc rest Hfuel;
    [contradiction|].
  destruct items as [|v' items]; cbn [map list_sum fold_right] in Hfuel;
    (destruct fuel as [|fuel]; [lia|]); cbn [Json.scan_items].
  - cbn [map Json.join]. rewrite Hv; [|lia|cbn; auto].
    reflexivity.
  - change (Json.join (map Json.dumps_text (v :: v' :: items)))
      with (Json.dumps_text v ++ ","%char :: " "%char
            :: Json.join (map Json.dumps_text (v' :: items))).
    rewrite <- app_assoc. cbn [app].
    rewrite Hv; [|lia|cbn; auto].
    rewrite skip_ws_delimited by (cbn; auto).
    change (Ascii.eqb "," "]") with false. change (Ascii.eqb "," ",") with true.
    cbv iota. rewrite skip_ws_space.
    assert (Hskip : forall tail,
      Json.skip_ws (Json.join (map Json.dumps_text (v' :: items)) ++ tail)
      = Json.join (map Json.dumps_text (v' :: items)) ++ tail).
    { intros tail. destruct (dumps_text_head v') as (c & tl & Ehd & Hc).
      destruct items; cbn [map Json.join]; rewrite Ehd;
        cbn [app]; apply skip_ws_opens, Hc. }
    rewrite Hskip.
    rewrite IH; [|discriminate|cbn [map list_sum fold_right]; lia].
    cbn [rev]. rewrite <- app_assoc. reflexivity.
Qed.

Lemma scan_members_step (fuel : nat) (body rest1 rest2 : Json.text)
    (acc : list (string * Json.t)) (k : string) (v : Json.t) :
  Json.scanstring body [] = Some (k, ":"%char :: rest1) ->
  Json.scan_once fuel (Json.skip_ws rest1) = Some (v, rest2) ->
  Json.scan_members (S fuel) (Json.quote :: body) acc
  = match Json.skip_ws rest2 with
    | [] => None
    | c2 :: rest3 =>
        if Ascii.eqb c2 "}" then
          Some (Json.Obj (Json.dict (rev ((k, v) :: acc))), rest3)
        else if Ascii.eqb c2 "," then
          Json.scan_members fuel (Json.skip_ws rest3) ((k, v) :: acc)
        else None
    end.
Proof.
  intros E1 E2. cbn [Json.scan_members].
  change (negb (Ascii.eqb Json.quote Json.quote)) with false. cbv iota.
  rewrite E1.
  change (Json.skip_ws (":"%char :: rest1)) with (":"%char :: rest1). cbv iota.
  change (negb (Ascii.eqb ":" ":")) with false. cbv iota.
  rewrite E2. reflexivity.
Qed.

Lemma scan_members_dumps (members : list (string * Json.t)) :
  Forall (fun kv => scans (snd kv)) members -> members <> [] ->
  forall fuel acc rest,
    list_sum (map (fun kv => S (Json.size (snd kv))) members) <= fuel ->
    Json.scan_members fuel
      (Json.join (map member_text members) ++ "}"%char :: rest) acc
    = Some (Json.Obj (Json.dict (rev acc ++ members)), rest).
Proof.
  induction 1 as [|[k v] members Hv Hmembers IH];
    intros Hne fuel acc rest Hfuel; [contradiction|].
  cbn [snd] in Hv.
  assert (Hstep : forall tail fuel',
    Json.size v <= fuel' -> delimited tail ->
    exists body,
      member_text (k, v) ++ tail = Json.quote :: body /\
      Json.scanstring body []
      = Some (k, ":"%char :: " "%char :: Json.dumps_text v ++ tail) /\
      Json.scan_once fuel'
        (Json.skip_ws (" "%char :: Json.dumps_text v ++ tail))
      = Some (v, tail)).
  { intros tail fuel' Hf Htail. unfold member_text. cbn [fst snd].
    destruct (scanstring_dumps_str k
                (":"%char :: " "%char :: Json.dumps_text v ++ tail))
      as (body & Ebody & Hscan).
    exists body. rewrite <- app_assoc. cbn [app]. split; [exact Ebody|].
    split; [exact Hscan|].
    rewrite skip_ws_space.
    destruct (dumps_text_head v) as (c & tl & Ehd & Hc).
    rewrite Ehd. cbn [app]. rewrite skip_ws_opens by exact Hc.
    change (c :: tl ++ tail) with ((c :: tl) ++ tail). rewrite <- Ehd.
    apply Hv; assumption. }
  destruct members as [|kv' members]; cbn [map list_sum fold_right snd] in Hfuel;
    (destruct fuel as [|fuel]; [lia|]).
  - cbn [map Json.join].
    destruct (Hstep ("}"%char :: rest) fuel) as (body & E0 & E1 & E2);
      [lia|cbn; auto|].
    rewrite E0, (scan_members_step _ _ _ _ _ _ _ E1 E2). reflexivity.
  - change (Json.join (map member_text ((k, v) :: kv' :: members)))
      with (member_text (k, v) ++ ","%char :: " "%char
            :: Json.join (map member_text (kv' :: members))).
    rewrite <- app_assoc. cbn [app].
    destruct (Hstep (","%char :: " "%char
                     :: Json.join (map member_text (kv' :: members))
                     ++ "}"%char :: rest) fuel) as (body & E0 & E1 & E2);
      [lia|cbn; auto|].
    rewrite E0, (scan_members_step _ _ _ _ _ _ _ E1 E2).
    rewrite skip_ws_delimited by (cbn; auto).
    change (Ascii.eqb "," "}") with false. change (Ascii.eqb "," ",") with true.
    cbv iota. rewrite skip_ws_space.
    assert (Hskip : forall tail,
      Json.skip_ws (Json.join (map member_text (kv' :: members)) ++ tail)
      = Json.join (map member_text (kv' :: members)) ++ tail).
    { intros tail. destruct members; cbn [map Json.join]; reflexivity. }
    rewrite Hskip.
    rewrite IH; [|discriminate|cbn [map list_sum fold_right]; lia].
    cbn [rev]. rewrite <- app_assoc. reflexivity.
Qed.

Lemma scan_once_bracket (fuel : nat) (s : Json.text) :
  Json.scan_once (S fuel) ("["%char :: s)
  = match Json.skip_ws s with
    | [] => None
    | c :: rest =>
        if Ascii.eqb c "]" then Some (Json.Arr [], rest)
        else Json.scan_items fuel (c :: rest) []
    end.
Proof. reflexivity. Qed.

Lemma scan_once_brace (fuel : nat) (s : Json.text) :
  Json.scan_once (S fuel) ("{"%char :: s)
  = match Json.skip_ws s with
    | [] => None
    | c :: rest =>
        if Ascii.eqb c "}" then Some (Json.Obj [], rest)
        else Json.scan_members fuel (c :: rest) []
    end.
Proof. reflexivity. Qed.

Lemma scans_all (v : Json.t) : Json.wf v = true -> scans v.
Proof.
  induction v as [|b|z|s|items IH|members IH] using json_ind;
    intros Hwf fuel rest Hfuel Hrest;
    (destruct fuel as [|fuel]; [cbn in Hfuel; lia|]).
  - reflexivity.
  - destruct b; reflexivity.
  - destruct z as [|p|p].
    + change (Json.dumps_text (Json.Int 0) ++ rest) with ("0"%char :: rest).
      rewrite scan_once_digit by reflexivity.
      rewrite scan_nat_zero by exact Hrest. reflexivity.
    + cbn [Json.dumps_text Json.dumps_int].
      pose proof (digits_of_uint (Pos.to_uint p)) as Hd.
      destruct (to_uint_head p) as (c & cs & E & _).
      pose proof (scan_nat_positive p rest Hrest) as Hscan.
      rewrite E in Hd, Hscan |- *. cbn [app] in Hscan |- *.
      rewrite scan_once_digit by (inversion Hd; assumption).
      rewrite Hscan. reflexivity.
    + cbn [Json.dumps_text Json.dumps_int app].
      change (Json.scan_once (S fuel) ("-"%char :: ?s))
        with (option_map (fun nr => (Json.Int (- Z.of_N (fst nr)), snd nr))
                         (Json.scan_nat s)).
      rewrite scan_nat_positive by exact Hrest. reflexivity.
  - cbn [Json.dumps_text].
    destruct (scanstring_dumps_str s rest) as (body & -> & Hscan).
    change (Json.scan_once (S fuel) (Json.quote :: body))
      with (option_map (fun sr => (Json.Str (fst sr), snd sr))
                       (Json.scanstring body [])).
    rewrite Hscan. reflexivity.
  - cbn [Json.wf] in Hwf. cbn [Json.size] in Hfuel.
    cbn [Json.dumps_text app]. rewrite <- app_assoc. cbn [app].
    rewrite scan_once_bracket.
    destruct items as [|v items]; [reflexivity|].
    assert (Hall : Forall scans (v :: items)).
    { pose proof (proj1 (List.forallb_forall _ _) Hwf) as Hwf'.
      apply Forall_forall. intros x Hx.
      rewrite Forall_forall in IH. apply IH; [exact Hx|].
      apply Hwf', list_elem_of_In, Hx. }
    pose proof (scan_items_dumps (v :: items) Hall ltac:(discriminate)
                  fuel [] rest ltac:(lia)) as Hscan.
    destruct (dumps_text_head v) as (c & tl & Ehd & Hc).
    assert (Ehead : exists tl',
      Json.join (map Json.dumps_text (v :: items)) ++ "]"%char :: rest = c :: tl').
    { destruct items; cbn [map Json.join]; rewrite Ehd; eexists; reflexivity. }
    destruct Ehead as (tl' & Ehead). rewrite Ehead in Hscan |- *.
    rewrite skip_ws_opens by exact Hc.
    destruct Hc as (_ & -> & _). exact Hscan.
  - cbn [Json.wf] in Hwf. apply andb_prop in Hwf as [Hnd Hwf].
    apply bool_decide_eq_true in Hnd. cbn [Json.size] in Hfuel.
    change (Json.dumps_text (Json.Obj members))
      with ("{"%char :: Json.join (map member_text members) ++ ["}"%char]).
    cbn [app]. rewrite <- app_assoc. cbn [app].
    rewrite scan_once_brace.
    destruct members as [|[k v] members]; [reflexivity|].
    assert (Hall : Forall (fun kv => scans (snd kv)) ((k, v) :: members)).
    { pose proof (proj1 (List.forallb_forall _ _) Hwf) as Hwf'.
      apply Forall_forall. intros x Hx.
      rewrite Forall_forall in IH. apply IH; [exact Hx|].
      apply Hwf', list_elem_of_In, Hx. }
    pose proof (scan_members_dumps ((k, v) :: members) Hall ltac:(discriminate)
                  fuel [] rest ltac:(lia)) as Hscan.
    cbn [rev app] in Hscan. rewrite dict_distinct in Hscan by exact Hnd.
    assert (Ehead : exists tl',
      Json.join (map member_text ((k, v) :: members)) ++ "}"%char :: rest
      = Json.quote :: tl').
    { destruct members; cbn [map Json.join]; eexists; reflexivity. }
    destruct Ehead as (tl' & Ehead). rewrite Ehead in Hscan |- *.
    rewrite skip_ws_opens by exact quote_opens. exact Hscan.
Qed.

(** The text of a value is at least as long as the fuel its scan takes. *)
Lemma join_length (chunks : list Json.text) (sizes : list nat) :
  Forall2 (fun c n => n <= length c) chunks sizes ->
  list_sum (map S sizes) <= S (length (Json.join chunks)).
Proof.
  induction 1 as [|c n chunks sizes Hc Hrest IH]; [cbn; lia|].
  destruct Hrest as [|c' n' chunks sizes Hc' Hrest].
  - cbn. lia.
  - change (Json.join (c :: c' :: chunks))
      with (c ++ ","%char :: " "%char :: Json.join (c' :: chunks)).
    rewrite length_app. cbn [length map list_sum fold_right] in *. lia.
Qed.

Lemma size_le_length (v : Json.t) :
  Json.size v <= length (Json.dumps_text v).
Proof.
  induction v as [|b|z|s|items IH|members IH] using json_ind.
  - cbn. lia.
  - destruct b; cbn; lia.
  - destruct (dumps_text_head (Json.Int z)) as (c & tl & -> & _). cbn. lia.
  - cbn. lia.
  - cbn [Json.size Json.dumps_text length]. rewrite length_app. cbn [length].
    pose proof (join_length (map Json.dumps_text items) (map Json.size items)) as H.
    rewrite map_map in H.
    enough (HF : Forall2 (fun c n => n <= length c)
                    (map Json.dumps_text items) (map Json.size items))
      by (specialize (H HF); lia).
    clear H. induction IH; constructor; assumption.
  - change (Json.dumps_text (Json.Obj members))
      with ("{"%char :: Json.join (map member_text members) ++ ["}"%char]).
    cbn [Json.size length]. rewrite length_app. cbn [length].
    pose proof (join_length (map member_text members)
                  (map (fun kv => Json.size (snd kv)) members)) as H.
    rewrite map_map in H.
    enough (HF : Forall2 (fun c n => n <= length c) (map member_text members)
                    (map (fun kv => Json.size (snd kv)) members))
      by (specialize (H HF); lia).
    clear H. induction IH as [|[k v] members Hv _ IHm]; constructor; [|assumption].
    unfold member_text. cbn [fst snd] in *. rewrite length_app. cbn [length]. lia.
Qed.

(** [json.loads(json.dumps(v))] is [v]. *)
Theorem loads_dumps (v : Json.t) :
  Json.wf v = true -> Json.loads (Json.dumps v) = Some v.
Proof.
  intros Hwf. unfold Json.loads, Json.dumps.
  rewrite list_ascii_of_string_of_list_ascii.
  destruct (dumps_text_head v) as (c & tl & Ehd & Hc).
  assert (Hskip : Json.skip_ws (Json.dumps_text v) = Json.dumps_text v).
  { rewrite Ehd. apply skip_ws_opens, Hc. }
  rewrite Hskip.
  pose proof (scans_all v Hwf (S (length (Json.dumps_text v))) []) as Hscan.
  rewrite app_nil_r in Hscan. rewrite Hscan; [reflexivity| |exact I].
  pose proof (size_le_length v). lia.
Qed.

End JsonFacts.

(** ** The helper classes *)

Section Facts.
Context {Cloud : Type} `{Provider Cloud}.

(** *** The rules of the weakest precondition *)

Lemma wp_ret {L A} (a : A) (l : L) (w : World Cloud) Q :
  Q (Return a) l w -> wp (ret a) l w Q.
Proof. exact (fun q => q). Qed.

Lemma wp_raise {L A} (e : exn) (l : L) (w : World Cloud) (Q : outcome A -> _) :
    Q (Raise e) l w -> wp (raise e) l w Q.
Proof. exact (fun q => q). Qed.

Lemma wp_bind {L A B} (m : M Cloud L A) (k : A -> M Cloud L B) l (w : World Cloud) Q :
    wp m l w (fun res l' w' =>
      match res with
      | Return a => wp (k a) l' w' Q
      | Raise e => Q (Raise e) l' w'
      end) ->
    wp (bind m k) l w Q.
Proof.
  unfold wp, bind. destruct (m l w) as [[[a|e] l'] w']; exact (fun q => q).
Qed.

Lemma wp_try {L A B} (body : M Cloud L A) handler (orelse : A -> M Cloud L B)
      l (w : World Cloud) Q :
    wp body l w (fun res l' w' =>
      match res with
      | Return a => wp (orelse a) l' w' Q
      | Raise (ClientError ce) => wp (handler ce) l' w' Q
      | Raise e => Q (Raise e) l' w'
      end) ->
    wp (try_except_else body handler orelse) l w Q.
Proof.
  unfold wp, try_except_else.
  destruct (body l w) as [[[a|[]] l'] w']; exact (fun q => q).
Qed.

Lemma wp_call {L} (c : api_call) (l : L) (w : World Cloud) Q :
    (forall r c', request c (cloud w) = (r, c') ->
       Q (match r with
          | inl ce => Raise (exn_of c ce)
          | inr a => Return a
          end) l (emit (EApi c r) (with_cloud c' w))) ->
    wp (call c) l w Q.
Proof.
  intros HQ. unfold wp, call.
  destruct (request c (cloud w)) as [r c'] eqn:Hr.
  specialize (HQ r c' eq_refl). destruct r; exact HQ.
Qed.

Lemma wp_log {L} lvl msg args (l : L) (w : World Cloud) Q :
    Q (Return tt) l (emit (ELog lvl false (LStr msg) args) w) ->
    wp (log lvl msg args) l w Q.
Proof. exact (fun q => q). Qed.

Lemma wp_log_exception {L} msg args (l : L) (w : World Cloud) Q :
    Q (Return tt) l (emit (ELog ERROR true msg args) w) ->
    wp (log_exception msg args) l w Q.
Proof. exact (fun q => q). Qed.

Lemma wp_print {L} args (l : L) (w : World Cloud) Q :
    Q (Return tt) l (emit (EPrint args) w) -> wp (print args) l w Q.
Proof. exact (fun q => q). Qed.

Lemma wp_load {L A} name (proj : L -> option A) l (w : World Cloud) Q :
    match proj l with
    | Some a => Q (Return a) l w
    | None => Q (Raise (UnboundLocalError name)) l w
    end ->
    wp (load name proj) l w Q.
Proof. unfold wp, load. destruct (proj l); exact (fun q => q). Qed.

Lemma wp_store {L} (upd : L -> L) l (w : World Cloud) Q :
    Q (Return tt) (upd l) w -> wp (store upd) l w Q.
Proof. exact (fun q => q). Qed.

Lemma wp_mono {L A} (m : M Cloud L A) l (w : World Cloud) (Q Q' : outcome A -> _) :
    (forall res l' w', Q res l' w' -> Q' res l' w') ->
    wp m l w Q -> wp m l w Q'.
Proof.
  intros HQ. unfold wp. destruct (m l w) as [[res l'] w']. apply HQ.
Qed.

(** The loop rule: [I] holds of the items already processed. *)
Lemma wp_for_each_from {L A B} (I : list A -> L -> World Cloud -> Prop)
      (body : A -> M Cloud L B) (xs : list A)
      (Q : outcome (list B) -> L -> World Cloud -> Prop) :
    (forall pre x post l w, xs = pre ++ x :: post -> I pre l w ->
       wp (body x) l w (fun res l' w' =>
         match res with
         | Return _ => I (pre ++ [x]) l' w'
         | Raise e => Q (Raise e) l' w'
         end)) ->
    (forall bs l w, I xs l w -> Q (Return bs) l w) ->
    forall todo pre l w, xs = pre ++ todo -> I pre l w ->
    wp (for_each todo body) l w
       (fun res l' w' =>
          match res with
          | Return _ => I xs l' w'
          | Raise e => Q (Raise e) l' w'
          end).
Proof.
  intros Hbody Hdone todo. induction todo as [|x todo IH]; intros pre l w Hxs HI.
  - rewrite app_nil_r in Hxs. subst pre. exact HI.
  - simpl. apply wp_bind.
    eapply wp_mono; [|exact (Hbody pre x todo l w Hxs HI)].
    intros [b|e] l' w' Hres; [|exact Hres].
    apply wp_bind.
    eapply wp_mono; [|apply (IH (pre ++ [x]) l' w'); [|exact Hres]].
    + intros [bs|e] l2 w2 Hres2; exact Hres2.
    + rewrite <- app_assoc. exact Hxs.
Qed.

Lemma wp_for_each {L A B} (I : list A -> L -> World Cloud -> Prop)
      (body : A -> M Cloud L B) (xs : list A) l (w : World Cloud)
      (Q : outcome (list B) -> L -> World Cloud -> Prop) :
    I [] l w ->
    (forall pre x post l w, xs = pre ++ x :: post -> I pre l w ->
       wp (body x) l w (fun res l' w' =>
         match res with
         | Return _ => I (pre ++ [x]) l' w'
         | Raise e => Q (Raise e) l' w'
         end)) ->
    (forall bs l w, I xs l w -> Q (Return bs) l w) ->
    wp (for_each xs body) l w Q.
Proof.
  intros H0 Hbody Hdone.
  eapply wp_mono;
    [|exact (wp_for_each_from I body xs Q Hbody Hdone xs [] l w eq_refl H0)].
  intros [bs|e] l' w' Hres; [apply Hdone|]; exact Hres.
Qed.

Lemma wp_run {L A} (frame : L) (m : M Cloud L A) (w : World Cloud) (Q : outcome A -> _) :
    wp m frame w (fun res _ w' => Q res w') ->
    let '(res, w') := run frame m w in Q res w'.
Proof. unfold wp, run. destruct (m frame w) as [[res l'] w']. exact (fun q => q). Qed.

(** *** Traces *)

Lemma api_events_app (a b : list event) :
    api_events (a ++ b) = api_events a ++ api_events b.
Proof. apply List.filter_app. Qed.

Lemma api_events_all (l : list event) :
    List.Forall (fun e => is_api e = true) l -> api_events l = l.
Proof.
  induction 1 as [|e l He _ IH]; [reflexivity|].
  unfold api_events in *. simpl. rewrite He, IH. reflexivity.
Qed.

Lemma api_events_requests {A} (mk : A -> api_call)
      (r : forall x, client_error + response (mk x)) (xs : list A) :
    api_events (map (fun x => EApi (mk x) (r x)) xs)
    = map (fun x => EApi (mk x) (r x)) xs.
Proof.
  apply api_events_all. apply List.Forall_forall. intros e He.
  apply in_map_iff in He. destruct He as (x & <- & _). reflexivity.
Qed.

Lemma trace_emit (e : event) (w : World Cloud) :
    trace (emit e w) = trace w ++ [e].
Proof. reflexivity. Qed.

Lemma trace_with_cloud (c : Cloud) (w : World Cloud) :
    trace (with_cloud c w) = trace w.
Proof. reflexivity. Qed.

Lemma aborted_here plan c r ce :
    aborted (EApi c r :: plan) [EApi c (inl ce)] ce.
Proof. exists [], (EApi c r), plan, c. repeat split. Qed.

Lemma aborted_later p q evs ce :
    aborted q evs ce -> aborted (p ++ q) (p ++ evs) ce.
Proof.
  intros (pre & e & post & c & -> & Hc & ->).
  exists (p ++ pre), e, post, c. rewrite <- !app_assoc. repeat split. exact Hc.
Qed.

Lemma aborted_cons e q evs ce :
    aborted q evs ce -> aborted (e :: q) (e :: evs) ce.
Proof. apply (aborted_later [e]). Qed.

Lemma aborted_loop {A} (mk : A -> api_call) (ok : forall x, response (mk x))
      pre x post rest ce :
    aborted (map (fun x => EApi (mk x) (inr (ok x))) (pre ++ x :: post) ++ rest)
            (map (fun x => EApi (mk x) (inr (ok x))) pre ++ [EApi (mk x) (inl ce)])
            ce.
Proof.
  rewrite map_app. simpl. rewrite <- app_assoc.
  apply aborted_later. simpl. apply aborted_here.
Qed.


(** *** IAMAdmin.delete_role *)

(** C1. [delete_role] issues the teardown requests in the planned order
    (list and detach the managed policies, list the instance profiles and
    remove the role from each, list and delete the inline policies, delete
    the role) and returns [True] when all of them succeed; when a request
    fails, no further request is issued and the provider error is raised
    again. *)
Theorem delete_role_ordered_teardown (self : IAMAdmin.t) (role : string)
      (w : World Cloud) :
    exists res w' new attached profiles inline,
      IAMAdmin.delete_role self role w = (res, w') /\
      trace w' = trace w ++ new /\
      ((res = Return true /\
        api_events new = teardown role attached profiles inline) \/
       (exists ce, res = Raise (ClientError ce) /\
          aborted (teardown role attached profiles inline) (api_events new) ce)).
Proof.
  pose (Q := fun (res : outcome bool) (w' : World Cloud) =>
    exists new attached profiles inline,
      trace w' = trace w ++ new /\
      ((res = Return true /\
        api_events new = teardown role attached profiles inline) \/
       (exists ce, res = Raise (ClientError ce) /\
          aborted (teardown role attached profiles inline) (api_events new) ce))).
  assert (HQ : let '(res, w') := IAMAdmin.delete_role self role w in Q res w').
  2:{ destruct (IAMAdmin.delete_role self role w) as [res w'].
      destruct HQ as (new & a & p & i & HQ). exists res, w', new, a, p, i.
      split; [reflexivity|exact HQ]. }
  (* [done w1 evs]: the requests issued up to [w1] are [evs] *)
  pose (done := fun (w1 : World Cloud) (evs : list event) =>
    exists new, trace w1 = trace w ++ new /\ api_events new = evs).
  assert (Hlog : forall w1 evs lvl b msg args,
    done w1 evs -> done (emit (ELog lvl b msg args) w1) evs).
  { intros w1 evs lvl b msg args (new & Htr & Hapi).
    exists (new ++ [ELog lvl b msg args]). split.
    - rewrite trace_emit, Htr, <- app_assoc. reflexivity.
    - rewrite api_events_app, Hapi. apply app_nil_r. }
  assert (Hreq : forall w1 evs c r c',
    done w1 evs -> done (emit (EApi c r) (with_cloud c' w1)) (evs ++ [EApi c r])).
  { intros w1 evs c r c' (new & Htr & Hapi).
    exists (new ++ [EApi c r]). split.
    - rewrite trace_emit, trace_with_cloud, Htr, <- app_assoc. reflexivity.
    - rewrite api_events_app, Hapi. reflexivity. }
  (* the handler, entered after a run that was cut short *)
  assert (Hfail : forall ce l1 w1 evs attached profiles inline,
    done w1 evs ->
    aborted (teardown role attached profiles inline) evs ce ->
    wp (log_exception (LStr "Couldn't delete role named '%s' ") [LStr role] ;;
        log_exception (LStr "Error:  %s") [LStr (repr_error ce)] ;;
        raise (ClientError ce)) l1 w1
       (fun (res : outcome bool) (_ : unit) w' => Q res w')).
  { intros ce l1 w1 evs a p i Hd Hab.
    apply wp_bind, wp_log_exception, wp_bind, wp_log_exception, wp_raise.
    do 2 eapply Hlog in Hd. destruct Hd as (new & Htr & Hapi).
    exists new, a, p, i. split; [exact Htr|].
    right. exists ce. rewrite Hapi. split; [reflexivity|exact Hab]. }
  assert (H0 : done w []) by (exists []; split; [symmetry; apply app_nil_r|reflexivity]).
  apply wp_run, wp_try. unfold IAMAdmin.delete_role_try.
  (* managed policies *)
  apply wp_bind, wp_log. eapply Hlog in H0.
  apply wp_bind, wp_call. intros [ce|attached] c1 _; eapply Hreq in H0.
  { eapply (Hfail _ _ _ _ [] [] []); [exact H0|]. apply aborted_here. }
  cbn in attached. apply wp_bind.
  apply (wp_for_each (fun pre _ w1 =>
    done w1 ([EApi (ListAttachedRolePolicies role) (inr attached)]
             ++ map (fun a => EApi (DetachRolePolicy role a) (inr tt)) pre))).
  { exact H0. }
  { intros pre x post l1 w1 -> Hd.
    apply (wp_call (DetachRolePolicy role x)).
    intros [ce|[]] c2 _; eapply Hreq in Hd.
    - eapply (Hfail _ _ _ _ (pre ++ x :: post) [] []); [exact Hd|].
      rewrite <- app_assoc. simpl. apply aborted_cons.
      apply (aborted_loop (DetachRolePolicy role) (fun _ => tt)).
    - rewrite map_app, app_assoc. exact Hd. }
  clear H0. intros _ l1 w1 H1.
  (* instance profiles *)
  apply wp_bind, wp_log. eapply Hlog in H1.
  apply wp_bind, wp_call. intros [ce|profiles] c2 _; eapply Hreq in H1.
  { eapply (Hfail _ _ _ _ attached [] []); [exact H1|].
    rewrite <- app_assoc. simpl. apply aborted_cons, aborted_later, aborted_here. }
  cbn in profiles. apply wp_bind.
  apply (wp_for_each (fun pre _ w2 =>
    done w2 (([EApi (ListAttachedRolePolicies role) (inr attached)]
              ++ map (fun a => EApi (DetachRolePolicy role a) (inr tt)) attached)
             ++ [EApi (ListInstanceProfilesForRole role) (inr profiles)]
             ++ map (fun p => EApi (RemoveRoleFromInstanceProfile p role) (inr tt))
                    pre))).
  { rewrite app_nil_r. exact H1. }
  { intros pre x post l2 w2 -> Hd.
    apply (wp_call (RemoveRoleFromInstanceProfile x role)).
    intros [ce|[]] c3 _; eapply Hreq in Hd.
    - eapply (Hfail _ _ _ _ attached (pre ++ x :: post) []); [exact Hd|].
      rewrite <- !app_assoc. simpl. apply aborted_cons, aborted_later, aborted_cons.
      apply (aborted_loop (fun p => RemoveRoleFromInstanceProfile p role) (fun _ => tt)).
    - rewrite map_app, !app_assoc. rewrite !app_assoc in Hd. exact Hd. }
  clear H1. intros _ l2 w2 H2.
  (* inline policies *)
  apply wp_bind, wp_log. eapply Hlog in H2.
  apply wp_bind, wp_call. intros [ce|inline] c3 _; eapply Hreq in H2.
  { eapply (Hfail _ _ _ _ attached profiles []); [exact H2|].
    rewrite <- !app_assoc. simpl.
    apply aborted_cons, aborted_later, aborted_cons, aborted_later, aborted_here. }
  cbn in inline. apply wp_bind.
  apply (wp_for_each (fun pre _ w3 =>
    done w3 ((([EApi (ListAttachedRolePolicies role) (inr attached)]
               ++ map (fun a => EApi (DetachRolePolicy role a) (inr tt)) attached)
              ++ [EApi (ListInstanceProfilesForRole role) (inr profiles)]
              ++ map (fun p => EApi (RemoveRoleFromInstanceProfile p role) (inr tt))
                     profiles)
             ++ [EApi (ListRolePolicies role) (inr inline)]
             ++ map (fun p => EApi (DeleteRolePolicy role p) (inr tt)) pre))).
  { rewrite app_nil_r. exact H2. }
  { intros pre x post l3 w3 -> Hd.
    apply (wp_call (DeleteRolePolicy role x)).
    intros [ce|[]] c4 _; eapply Hreq in Hd.
    - eapply (Hfail _ _ _ _ attached profiles (pre ++ x :: post)); [exact Hd|].
      rewrite <- !app_assoc. simpl.
      apply aborted_cons, aborted_later, aborted_cons, aborted_later, aborted_cons.
      apply (aborted_loop (DeleteRolePolicy role) (fun _ => tt)).
    - rewrite map_app, !app_assoc. rewrite !app_assoc in Hd. exact Hd. }
  clear H2. intros _ l3 w3 H3.
  (* the role itself *)
  apply wp_bind, (wp_call (DeleteRole role)). intros [ce|[]] c4 _; eapply Hreq in H3.
  { eapply (Hfail _ _ _ _ attached profiles inline); [exact H3|].
    rewrite <- !app_assoc. simpl.
    apply aborted_cons, aborted_later, aborted_cons, aborted_later, aborted_cons,
          aborted_later, aborted_here. }
  apply wp_print, wp_ret.
  destruct H3 as (new & Htr & Hapi).
  exists (new ++ [EPrint ["+ Deleted IAM Role: %s"; role]]), attached, profiles, inline.
  split.
  - rewrite trace_emit, Htr, <- app_assoc. reflexivity.
  - left. split; [reflexivity|].
    rewrite api_events_app, Hapi. cbn [api_events List.filter is_api].
    rewrite app_nil_r, <- !app_assoc. reflexivity.
Qed.


(** *** IAMAdmin: instance profiles *)

(** C5. A provider failure inside [create_instance_profile] or
    [get_instance_profile] is logged and swallowed: the method returns
    [None] instead of the profile ARN, and nothing is raised. *)
Theorem instance_profile_failures_swallowed (self : IAMAdmin.t)
      (profile_name : string) (w : World Cloud) (ce : client_error) (c' : Cloud) :
    (request (CreateInstanceProfile profile_name
                ("/" +:+ IAMAdmin.path self +:+ "/")) (cloud w) = (inl ce, c') ->
     exists w',
       IAMAdmin.create_instance_profile self profile_name w = (Return None, w') /\
       trace w' = trace w ++
         [EApi (CreateInstanceProfile profile_name
                  ("/" +:+ IAMAdmin.path self +:+ "/")) (inl ce);
          ELog ERROR true (LStr "Couldn't instance profile named '%s'.")
               [LStr profile_name];
          ELog ERROR true (LStr "Error:  %s") [LStr (repr_error ce)]]) /\
    (request (GetInstanceProfile profile_name) (cloud w) = (inl ce, c') ->
     exists w',
       IAMAdmin.get_instance_profile self profile_name w = (Return None, w') /\
       trace w' = trace w ++
         [EApi (GetInstanceProfile profile_name) (inl ce);
          ELog ERROR true
               (LStr "Couldn't get instance profile named '%s' in region=%s.")
               [LStr profile_name; LStr (IAMAdmin.region self)];
          ELog ERROR true (LStr "Error:  %s") [LStr (repr_error ce)]]).
Proof.
  split; intros Hreq.
  - unfold IAMAdmin.create_instance_profile, run, try_except_else, bind, call.
    rewrite Hreq. cbn. eexists. split; [reflexivity|].
    cbn. rewrite <- ?app_assoc. reflexivity.
  - unfold IAMAdmin.get_instance_profile, run, try_except_else, bind, call.
    rewrite Hreq. cbn. eexists. split; [reflexivity|].
    cbn. rewrite <- ?app_assoc. reflexivity.
Qed.

(** When the request succeeds, the ARN of the response is returned. *)
Lemma instance_profile_success (self : IAMAdmin.t) (profile_name arn : string)
      (w : World Cloud) (c' : Cloud) :
    (request (CreateInstanceProfile profile_name
                ("/" +:+ IAMAdmin.path self +:+ "/")) (cloud w) = (inr arn, c') ->
     fst (IAMAdmin.create_instance_profile self profile_name w)
     = Return (Some arn)) /\
    (request (GetInstanceProfile profile_name) (cloud w) = (inr arn, c') ->
     fst (IAMAdmin.get_instance_profile self profile_name w) = Return (Some arn)).
Proof.
  split; intros Hreq.
  - unfold IAMAdmin.create_instance_profile, run, try_except_else, bind, call.
    rewrite Hreq. reflexivity.
  - unfold IAMAdmin.get_instance_profile, run, try_except_else, bind, call.
    rewrite Hreq. reflexivity.
Qed.

(** C4. [add_role_instance_profile] never returns the profile ARN. When
    the provider accepts the request, the statement that follows it calls
    the logger object itself, which raises [TypeError]; when the provider
    rejects the request, the handler reads [instance_role_profile], which
    the failed assignment left unbound, and raises [UnboundLocalError]
    in place of the provider error. *)
Theorem add_role_instance_profile_always_raises (self : IAMAdmin.t)
      (profile_name profile_arn role_name : string) (w : World Cloud) :
    fst (IAMAdmin.add_role_instance_profile self profile_name profile_arn
           role_name w)
    = match fst (request (AddRoleToInstanceProfile profile_name role_name)
                   (cloud w)) with
      | inr _ => Raise (TypeError "'Logger' object is not callable")
      | inl _ => Raise (UnboundLocalError "instance_role_profile")
      end.
Proof.
  unfold IAMAdmin.add_role_instance_profile, run, try_except_else, bind, call.
  destruct (request (AddRoleToInstanceProfile profile_name role_name) (cloud w))
    as [[ce|[]] c']; reflexivity.
Qed.

(** *** StorageBucket.create_bucket *)

(** What [create_bucket] does when the provider rejects the [CreateBucket]
    request: the failure is logged; then, for the region-mismatch code, the
    handler reads the attribute [s3resources3], which [__init__] never
    assigned; for every other code the provider error is raised again. *)
Lemma create_bucket_rejected (self : StorageBucket.t) (w : World Cloud) :
    match request (CreateBucket (StorageBucket.bucketname self)
                     (StorageBucket.current_region self)) (cloud w) with
    | (inl ce, c') =>
        StorageBucket.create_bucket self w
        = (if String.eqb (err_code ce) "IllegalLocationConstraintException"
           then Raise (AttributeError "StorageBucket" "s3resources3")
           else Raise (ClientError ce),
           emit (ELog ERROR true
                   (LStr "Couldn't create bucket named '%s' in region=%s.")
                   [LStr (StorageBucket.bucketname self);
                    LStr (StorageBucket.current_region self)])
             (emit (EApi (CreateBucket (StorageBucket.bucketname self)
                            (StorageBucket.current_region self)) (inl ce))
                (with_cloud c' w)))
    | (inr _, _) => True
    end.
Proof.
  destruct (request _ (cloud w)) as [[ce|[]] c'] eqn:Hreq; [|exact I].
  unfold StorageBucket.create_bucket, run, try_except_else, bind, call.
  rewrite Hreq. cbn.
  destruct (String.eqb (err_code ce) "IllegalLocationConstraintException");
    reflexivity.
Qed.

(** C6. When the provider rejects the [CreateBucket] request with the
    region-mismatch code, [create_bucket] logs the failure, but the
    statement that would log the remediation hint reads the attribute
    [s3resources3], which does not exist: no hint is logged, and
    [AttributeError] is raised in place of the provider error. *)
Theorem create_bucket_region_mismatch (self : StorageBucket.t)
      (w : World Cloud) (ce : client_error) (c' : Cloud) :
    request (CreateBucket (StorageBucket.bucketname self)
               (StorageBucket.current_region self)) (cloud w) = (inl ce, c') ->
    err_code ce = "IllegalLocationConstraintException" ->
    exists w',
      StorageBucket.create_bucket self w
      = (Raise (AttributeError "StorageBucket" "s3resources3"), w') /\
      trace w' = trace w ++
        [EApi (CreateBucket (StorageBucket.bucketname self)
                 (StorageBucket.current_region self)) (inl ce);
         ELog ERROR true
              (LStr "Couldn't create bucket named '%s' in region=%s.")
              [LStr (StorageBucket.bucketname self);
               LStr (StorageBucket.current_region self)]].
Proof.
  intros Hreq Hcode.
  pose proof (create_bucket_rejected self w) as Hrun.
  rewrite Hreq, Hcode in Hrun. cbn [String.eqb] in Hrun.
  eexists. split; [exact Hrun|].
  cbv [emit with_cloud trace]. rewrite <- app_assoc. reflexivity.
Qed.


(** *** InstanceManagement.create_instance *)

Lemma advance_emit (w : World Cloud) e c fs new :
    advance (emit e w) c fs new = advance w c fs (e :: new).
Proof. unfold advance, emit. cbn. rewrite <- app_assoc. reflexivity. Qed.

Lemma advance_nil (w : World Cloud) : advance w (cloud w) (files w) [] = w.
Proof. destruct w. unfold advance. cbn. rewrite app_nil_r. reflexivity. Qed.

(** The listing loop never fails; it logs one line per instance and
    leaves the last instance in [first_instance] and [instance_id]. *)
Lemma record_instances_run (listing : list instance)
      (l : InstanceManagement.frame) (w : World Cloud) :
    for_each listing InstanceManagement.record_instance l w
    = (Return (map (fun _ => tt) listing),
       fold_left (fun l i =>
                    InstanceManagement.Frame (InstanceManagement.instances l)
                                             (Some i) (Some (id i)))
                 listing l,
       advance w (cloud w) (files w) (map instance_line listing)).
Proof.
  revert l w. induction listing as [|i listing IH]; intros l w.
  - cbn. rewrite advance_nil. reflexivity.
  - cbn [for_each]. unfold bind at 1.
    change (InstanceManagement.record_instance i l w)
      with (Return tt,
            InstanceManagement.Frame (InstanceManagement.instances l)
                                     (Some i) (Some (id i)),
            emit (instance_line i) w).
    unfold bind. rewrite IH. cbn [map fold_left].
    rewrite advance_emit. reflexivity.
Qed.

Lemma recorded_instance_id (listing : list instance)
      (l : InstanceManagement.frame) :
    InstanceManagement.instance_id
      (fold_left (fun l i =>
                    InstanceManagement.Frame (InstanceManagement.instances l)
                                             (Some i) (Some (id i)))
                 listing l)
    = match last listing with
      | Some i => Some (id i)
      | None => InstanceManagement.instance_id l
      end.
Proof.
  revert l. induction listing as [|i listing IH]; intros l; [reflexivity|].
  cbn [fold_left]. rewrite IH, last_cons. destruct (last listing); reflexivity.
Qed.


(** A request as the first statement of a suite. *)
Lemma bind_call_inl {L B} (c : api_call) (k : response c -> M Cloud L B)
      l w ce c' :
    request c (cloud w) = (inl ce, c') ->
    bind (call c) k l w
    = (Raise (exn_of c ce), l, emit (EApi c (inl ce)) (with_cloud c' w)).
Proof. intros Hr. unfold bind, call. rewrite Hr. reflexivity. Qed.

Lemma bind_call_inr {L B} (c : api_call) (k : response c -> M Cloud L B)
      l w a c' :
    request c (cloud w) = (inr a, c') ->
    bind (call c) k l w = k a l (emit (EApi c (inr a)) (with_cloud c' w)).
Proof. intros Hr. unfold bind, call. rewrite Hr. reflexivity. Qed.

Lemma bind_write_denied {L B} path content (k : unit -> M Cloud L B) l w :
    path ∈ denied w ->
    bind (write_file path content) k l w = (Raise (OSError path), l, w).
Proof.
  intros Hd. unfold bind, write_file.
  destruct (decide (path ∈ denied w)); [reflexivity|contradiction].
Qed.

Lemma bind_write_ok {L B} path content (k : unit -> M Cloud L B) l w :
    path ∉ denied w ->
    bind (write_file path content) k l w
    = k tt l (advance w (cloud w) (<[path := content]> (files w))
                [EWrite path content]).
Proof.
  intros Hd. unfold bind, write_file.
  destruct (decide (path ∈ denied w)); [contradiction|reflexivity].
Qed.

Lemma bind_store {L B} (upd : L -> L) (k : unit -> M Cloud L B) l w :
    bind (store upd) k l w = k tt (upd l) w.
Proof. reflexivity. Qed.

(** [create_instance], run symbolically: one case per place where the
    suite can stop. *)
Lemma create_instance_run (self : InstanceManagement.t)
      (key_file key_pair role_arn role_name startup_script : string)
      (security_groups : list string) (w : World Cloud) :
    let launch := RunInstances "ami-032598fcc7e9d1c7a" 1 1 "t2.micro"
                    startup_script security_groups key_pair in
    let result := InstanceManagement.create_instance self key_file key_pair
                    role_arn role_name startup_script security_groups w in
    match request (DeleteKeyPair key_pair) (cloud w) with
    | (inl ce, c1) =>
        result = (Raise (UnboundLocalError "instances"),
                  advance w c1 (files w) [EApi (DeleteKeyPair key_pair) (inl ce)])
    | (inr _, c1) =>
      match request (CreateKeyPair key_pair) c1 with
      | (inl ce, c2) =>
          result = (Raise (UnboundLocalError "instances"),
                    advance w c2 (files w)
                      [EApi (DeleteKeyPair key_pair) (inr tt);
                       EApi (CreateKeyPair key_pair) (inl ce)])
      | (inr material, c2) =>
        if decide (key_file ∈ denied w) then
          result = (Raise (OSError key_file),
                    advance w c2 (files w)
                      [EApi (DeleteKeyPair key_pair) (inr tt);
                       EApi (CreateKeyPair key_pair) (inr material)])
        else
          match request launch c2 with
          | (inl ce, c3) =>
              result = (Raise (UnboundLocalError "instances"),
                        advance w c3 (<[key_file := material]> (files w))
                          [EApi (DeleteKeyPair key_pair) (inr tt);
                           EApi (CreateKeyPair key_pair) (inr material);
                           EWrite key_file material;
                           EApi launch (inl ce)])
          | (inr created, c3) =>
            match request DescribeInstances c3 with
            | (inl ce, c4) =>
                result = (Raise (ClientError ce),
                          advance w c4 (<[key_file := material]> (files w))
                            [EApi (DeleteKeyPair key_pair) (inr tt);
                             EApi (CreateKeyPair key_pair) (inr material);
                             EWrite key_file material;
                             EApi launch (inr created);
                             EApi DescribeInstances (inl ce);
                             ELog ERROR true (LInstances created) [];
                             ELog ERROR true
                               (LStr "Couldn't create EC2 Instance in region=%s.")
                               [LStr (InstanceManagement.region self)];
                             ELog ERROR true (LStr "Error:  %s")
                               [LStr (repr_error ce)]])
            | (inr listing, c4) =>
                result = (match last listing with
                          | Some i => Return (id i)
                          | None => Raise (UnboundLocalError "instance_id")
                          end,
                          advance w c4 (<[key_file := material]> (files w))
                            ([EApi (DeleteKeyPair key_pair) (inr tt);
                              EApi (CreateKeyPair key_pair) (inr material);
                              EWrite key_file material;
                              EApi launch (inr created);
                              EApi DescribeInstances (inr listing)]
                             ++ map instance_line listing))
            end
          end
      end
    end.
Proof.
  intros launch result. subst result.
  unfold InstanceManagement.create_instance, run, try_except_else.
  destruct (request (DeleteKeyPair key_pair) (cloud w)) as [[ce|[]] c1] eqn:H1.
  { erewrite bind_call_inl by exact H1.
    world_eq. }
  erewrite bind_call_inr by exact H1.
  destruct (request (CreateKeyPair key_pair) c1) as [[ce|material] c2] eqn:H2.
  { erewrite bind_call_inl by exact H2.
    world_eq. }
  erewrite bind_call_inr by exact H2. cbn in material.
  destruct (decide (key_file ∈ denied w)) as [Hden|Hden].
  { rewrite bind_write_denied by exact Hden. world_eq. }
  rewrite bind_write_ok by exact Hden.
  fold launch.
  destruct (request launch c2) as [[ce|created] c3] eqn:H3.
  { erewrite bind_call_inl by exact H3.
    world_eq. }
  erewrite bind_call_inr by exact H3.
  rewrite bind_store.
  destruct (request DescribeInstances c3) as [[ce|listing] c4] eqn:H4.
  { erewrite bind_call_inl by exact H4.
    world_eq. }
  erewrite bind_call_inr by exact H4.
  cbn in listing. unfold bind at 1.
  rewrite record_instances_run. unfold ret, load.
  rewrite recorded_instance_id. cbn [InstanceManagement.instance_id].
  destruct (last listing) as [i|];
    world_eq.
Qed.


Lemma instance_lines_not_written (listing : list instance) :
    Forall (fun e => is_write e = false) (map instance_line listing).
Proof. induction listing; constructor; [reflexivity|assumption]. Qed.

(** C2. When the old key pair is deleted and the new one created,
    [create_instance] writes the key material of the [CreateKeyPair]
    response to [key_file] before it issues the launch request, and writes
    nothing else: whatever happens afterwards, the file holds exactly the
    new material. *)
Theorem create_instance_rotates_key_pair (self : InstanceManagement.t)
      (key_file key_pair role_arn role_name startup_script : string)
      (security_groups : list string) (w : World Cloud)
      (c1 c2 : Cloud) (material : string) :
    request (DeleteKeyPair key_pair) (cloud w) = (inr tt, c1) ->
    request (CreateKeyPair key_pair) c1 = (inr material, c2) ->
    key_file ∉ denied w ->
    exists res w' launched rest,
      InstanceManagement.create_instance self key_file key_pair role_arn
        role_name startup_script security_groups w = (res, w') /\
      trace w' = trace w ++
        [EApi (DeleteKeyPair key_pair) (inr tt);
         EApi (CreateKeyPair key_pair) (inr material);
         EWrite key_file material;
         EApi (RunInstances "ami-032598fcc7e9d1c7a" 1 1 "t2.micro"
                 startup_script security_groups key_pair) launched]
        ++ rest /\
      Forall (fun e => is_write e = false) rest /\
      files w' !! key_file = Some material.
Proof.
  intros H1 H2 Hden.
  pose proof (create_instance_run self key_file key_pair role_arn role_name
                startup_script security_groups w) as Hrun.
  cbv zeta in Hrun. rewrite H1, H2 in Hrun.
  destruct (decide (key_file ∈ denied w)) as [|_]; [contradiction|].
  destruct (request (RunInstances _ _ _ _ _ _ _) c2) as [[ce|created] c3].
  { eexists _, _, (inl ce), []. split; [exact Hrun|].
    split; [reflexivity|]. split; [constructor|]. apply lookup_insert_eq. }
  destruct (request DescribeInstances c3) as [[ce|listing] c4].
  - eexists _, _, (inr created), _. split; [exact Hrun|].
    split; [reflexivity|]. split; [repeat constructor|]. apply lookup_insert_eq.
  - eexists _, _, (inr created), _. split; [exact Hrun|].
    split; [reflexivity|]. split; [|apply lookup_insert_eq].
    constructor; [reflexivity|]. apply instance_lines_not_written.
Qed.

(** C7. What [create_instance] does with a provider failure depends on
    the request that failed. When the listing fails, the failure is logged
    and the provider error is raised again. When any earlier request
    fails, the handler reads [instances], which is still unbound: nothing
    is logged and [UnboundLocalError] is raised in place of the provider
    error. *)
Theorem create_instance_failure (self : InstanceManagement.t)
      (key_file key_pair role_arn role_name startup_script : string)
      (security_groups : list string) (w w' : World Cloud)
      (res : outcome string) (new : list event) (e : event) (ce : client_error) :
    InstanceManagement.create_instance self key_file key_pair role_arn
      role_name startup_script security_groups w = (res, w') ->
    trace w' = trace w ++ new ->
    In e new -> failure_of e = Some ce ->
    (call_of e = Some DescribeInstances ->
       res = Raise (ClientError ce) /\
       In (ELog ERROR true (LStr "Couldn't create EC2 Instance in region=%s.")
                [LStr (InstanceManagement.region self)]) new) /\
    (call_of e <> Some DescribeInstances ->
       res = Raise (UnboundLocalError "instances") /\
       Forall (fun e' => is_log e' = false) new).
Proof.
  intros Hres Htr Hin Hfail.
  pose proof (create_instance_run self key_file key_pair role_arn role_name
                startup_script security_groups w) as Hrun.
  cbv zeta in Hrun. rewrite Hres in Hrun.
  destruct (request (DeleteKeyPair key_pair) (cloud w)) as [[ce1|[]] c1].
  { injection Hrun as -> ->. apply app_inv_head in Htr. subst new.
    destruct Hin as [<-|[]]. injection Hfail as ->.
    split; [discriminate|]. intros _. split; [reflexivity|repeat constructor]. }
  destruct (request (CreateKeyPair key_pair) c1) as [[ce2|material] c2].
  { injection Hrun as -> ->. apply app_inv_head in Htr. subst new.
    destruct Hin as [<-|[<-|[]]]; [discriminate|]. injection Hfail as ->.
    split; [discriminate|]. intros _. split; [reflexivity|repeat constructor]. }
  destruct (decide (key_file ∈ denied w)).
  { injection Hrun as -> ->. apply app_inv_head in Htr. subst new.
    destruct Hin as [<-|[<-|[]]]; discriminate. }
  destruct (request (RunInstances _ _ _ _ _ _ _) c2) as [[ce3|created] c3].
  { injection Hrun as -> ->. apply app_inv_head in Htr. subst new.
    destruct Hin as [<-|[<-|[<-|[<-|[]]]]]; try discriminate.
    injection Hfail as ->.
    split; [discriminate|]. intros _. split; [reflexivity|repeat constructor]. }
  destruct (request DescribeInstances c3) as [[ce4|listing] c4].
  { injection Hrun as -> ->. apply app_inv_head in Htr. subst new.
    destruct Hin as [<-|[<-|[<-|[<-|[<-|[<-|[<-|[<-|[]]]]]]]]]; try discriminate.
    injection Hfail as ->.
    split; [|intros Hne; contradiction Hne; reflexivity].
    intros _. split; [reflexivity|]. cbn. tauto. }
  injection Hrun as -> ->. apply app_inv_head in Htr. subst new.
  destruct Hin as [<-|[<-|[<-|[<-|[<-|Hin]]]]]; try discriminate.
  apply in_map_iff in Hin. destruct Hin as (i & <- & _). discriminate.
Qed.

(** The id [create_instance] returns is the id of the last instance of the
    account-wide listing; the response of the launch request is not read. *)
Lemma create_instance_returns_last_listed (self : InstanceManagement.t)
      (key_file key_pair role_arn role_name startup_script : string)
      (security_groups : list string) (w w' : World Cloud) (iid : string) :
    InstanceManagement.create_instance self key_file key_pair role_arn
      role_name startup_script security_groups w = (Return iid, w') ->
    exists material created listing i,
      trace w' = trace w ++
        [EApi (DeleteKeyPair key_pair) (inr tt);
         EApi (CreateKeyPair key_pair) (inr material);
         EWrite key_file material;
         EApi (RunInstances "ami-032598fcc7e9d1c7a" 1 1 "t2.micro"
                 startup_script security_groups key_pair) (inr created);
         EApi DescribeInstances (inr listing)]
        ++ map instance_line listing /\
      last listing = Some i /\ iid = id i.
Proof.
  intros Hres.
  pose proof (create_instance_run self key_file key_pair role_arn role_name
                startup_script security_groups w) as Hrun.
  cbv zeta in Hrun. rewrite Hres in Hrun.
  destruct (request (DeleteKeyPair key_pair) (cloud w)) as [[ce1|[]] c1];
    [discriminate|].
  destruct (request (CreateKeyPair key_pair) c1) as [[ce2|material] c2];
    [discriminate|].
  destruct (decide (key_file ∈ denied w)); [discriminate|].
  destruct (request (RunInstances _ _ _ _ _ _ _) c2) as [[ce3|created] c3];
    [discriminate|].
  destruct (request DescribeInstances c3) as [[ce4|listing] c4];
    [discriminate|].
  destruct (last listing) as [i|] eqn:Hlast; [|discriminate].
  injection Hrun as -> ->.
  exists material, created, listing, i.
  split; [reflexivity|]. split; [exact Hlast|reflexivity].
Qed.


(** *** StorageBucket: the bucket a manager works on *)

Lemma getattr_s3resource {L} :
    StorageBucket.getattr (Cloud:=Cloud) (L:=L) "s3resource" = ret tt.
Proof. reflexivity. Qed.

(** Every [create_bucket] starts with the request to create the bucket
    named [self.bucketname] in [self.current_region], and issues no other
    creation request. *)
Lemma create_bucket_target (self : StorageBucket.t) (w : World Cloud) :
    exists res w' answer rest,
      StorageBucket.create_bucket self w = (res, w') /\
      trace w' = trace w ++
        EApi (CreateBucket (StorageBucket.bucketname self)
                (StorageBucket.current_region self)) answer :: rest /\
      Forall (fun e => forall b loc, call_of e <> Some (CreateBucket b loc)) rest.
Proof.
  pose proof (create_bucket_rejected self w) as Hfail.
  destruct (request (CreateBucket (StorageBucket.bucketname self)
                       (StorageBucket.current_region self)) (cloud w))
    as [[ce|[]] c1] eqn:H1.
  { eexists _, _, (inl ce), _. split; [exact Hfail|]. split.
    - cbv [emit with_cloud trace]. rewrite <- app_assoc. reflexivity.
    - repeat constructor. discriminate. }
  clear Hfail.
  unfold StorageBucket.create_bucket, run, try_except_else.
  erewrite bind_call_inr by exact H1.
  destruct (request (WaitUntilBucketExists (StorageBucket.bucketname self)) c1)
    as [[ce|[]] c2] eqn:H2.
  { erewrite bind_call_inl by exact H2.
    eexists _, _, (inr tt), _. split; [reflexivity|]. split.
    - cbv [emit with_cloud trace exn_of]. rewrite <- app_assoc. reflexivity.
    - repeat constructor. discriminate. }
  erewrite bind_call_inr by exact H2. rewrite getattr_s3resource.
  eexists _, _, (inr tt), _. split; [reflexivity|]. split.
  - cbv [emit with_cloud trace bind ret log print StorageBucket.region_name].
    rewrite <- !app_assoc. reflexivity.
  - repeat constructor; discriminate.
Qed.

(** C10. The bucket name of a manager is chosen once, by [__init__], as
    the fixed prefix [sth] followed by a fresh UUID; [create_bucket] takes
    no name, and every call of it on that manager, in whatever state of the
    world, asks for the creation of that same bucket. *)
Theorem bucket_name_fixed_at_construction (w : World Cloud) :
    exists self w1,
      StorageBucket.init w = (Return self, w1) /\
      StorageBucket.bucketname self
      = "sth" +:+ Uuid.str (Uuid.uuid4_int (urandom w (drawn w))) /\
      forall w2 : World Cloud, exists res w3 answer rest,
        StorageBucket.create_bucket self w2 = (res, w3) /\
        trace w3 = trace w2 ++
          EApi (CreateBucket (StorageBucket.bucketname self)
                  (StorageBucket.current_region self)) answer :: rest /\
        Forall (fun e => forall b loc, call_of e <> Some (CreateBucket b loc))
               rest.
Proof.
  eexists _, _. split; [reflexivity|]. split; [reflexivity|].
  intros w2. apply create_bucket_target.
Qed.


(** *** StorageBucket.create_bucket_name *)

Lemma create_bucket_name_run (bucket_prefix : string) (w : World Cloud) :
    StorageBucket.create_bucket_name bucket_prefix tt w
    = (Return (bucket_prefix +:+ Uuid.str (Uuid.uuid4_int (urandom w (drawn w)))),
       tt,
       MkWorld (cloud w) (files w) (denied w) (urandom w) (S (drawn w))
               (session_region w) (trace w)).
Proof. reflexivity. Qed.

(** C3, as amended. For a prefix of at most 27 characters,
    [create_bucket_name] returns the prefix followed by the 36 characters
    of a fresh version-4 UUID: a name of at most 63 characters that starts
    with the prefix. Two successive calls return the same name exactly when
    the two random draws give the same UUID. *)
Theorem create_bucket_name_spec (bucket_prefix : string) (w : World Cloud) :
    String.length bucket_prefix <= 27 ->
    exists name1 name2 w1 w2,
      StorageBucket.create_bucket_name bucket_prefix tt w = (Return name1, tt, w1) /\
      StorageBucket.create_bucket_name bucket_prefix tt w1 = (Return name2, tt, w2) /\
      String.length name1 = String.length bucket_prefix + 36 /\
      String.length name2 = String.length bucket_prefix + 36 /\
      3 <= String.length name1 <= 63 /\
      3 <= String.length name2 <= 63 /\
      String.prefix bucket_prefix name1 = true /\
      String.prefix bucket_prefix name2 = true /\
      (name1 = name2 <->
       Uuid.uuid4_int (urandom w (drawn w))
       = Uuid.uuid4_int (urandom w (S (drawn w)))).
Proof.
  intros Hlen. eexists _, _, _, _.
  split; [apply create_bucket_name_run|].
  split; [apply create_bucket_name_run|].
  cbn [urandom drawn].
  rewrite !string_length_app, !uuid_str_length.
  repeat split; try lia; try apply string_prefix_app.
  - intros E. apply string_app_inj in E. apply uuid4_str_inj. exact E.
  - intros ->. reflexivity.
Qed.


(** *** StorageBucket: bucket policies *)


End Facts.

(** ** The helper classes on the in-memory provider *)

(** The spec's end-to-end scenario for roles: while anything is attached the
    provider refuses to delete the role; [delete_role] detaches everything
    first, succeeds, and the role is gone. *)
Example delete_role_on_sample :
  fst (request (DeleteRole "svc-role") FakeCloud.sample)
  = inl (FakeCloud.fault "DeleteConflict" "DeleteRole") /\
  (let '(res, w') := IAMAdmin.delete_role (IAMAdmin.New "convex" "eu-west-2")
                       "svc-role" FakeCloud.sample_world in
   res = Return true /\
   FakeCloud.roles (cloud w') !! "svc-role" = None /\
   api_events (trace w')
   = teardown "svc-role"
       ["arn:aws:iam::aws:policy/p1"; "arn:aws:iam::aws:policy/p2"]
       ["svc-profile"] ["inline-1"]).
Proof. vm_compute. repeat split. Qed.

(** C2 on the sample account: the key pair exists, the key file holds the
    old material; afterwards it holds the material of the new pair. *)
Lemma create_instance_rotates_key_pair_witness :
  FakeCloud.key_pairs FakeCloud.sample !! "deploy-key" = Some "PRIVATE KEY 3" /\
  files FakeCloud.sample_world !! "/tmp/deploy.pem" = Some "PRIVATE KEY 3" /\
  exists res w' launched rest,
    InstanceManagement.create_instance (InstanceManagement.New "eu-west-2")
      "/tmp/deploy.pem" "deploy-key" "arn:aws:iam::123456789012:role/svc-role"
      "svc-role" "#!/bin/sh" ["sg-1"] FakeCloud.sample_world = (res, w') /\
    trace w' = trace FakeCloud.sample_world ++
      [EApi (DeleteKeyPair "deploy-key") (inr tt);
       EApi (CreateKeyPair "deploy-key") (inr "PRIVATE KEY 7");
       EWrite "/tmp/deploy.pem" "PRIVATE KEY 7";
       EApi (RunInstances "ami-032598fcc7e9d1c7a" 1 1 "t2.micro"
               "#!/bin/sh" ["sg-1"] "deploy-key") launched]
      ++ rest /\
    Forall (fun e => is_write e = false) rest /\
    files w' !! "/tmp/deploy.pem" = Some "PRIVATE KEY 7".
Proof.
  split; [vm_compute; reflexivity|]. split; [vm_compute; reflexivity|].
  apply (create_instance_rotates_key_pair
           (InstanceManagement.New "eu-west-2")
           "/tmp/deploy.pem" "deploy-key"
           "arn:aws:iam::123456789012:role/svc-role" "svc-role" "#!/bin/sh"
           ["sg-1"] FakeCloud.sample_world
           (snd (request (DeleteKeyPair "deploy-key") FakeCloud.sample))
           (snd (request (CreateKeyPair "deploy-key")
                   (snd (request (DeleteKeyPair "deploy-key") FakeCloud.sample))))
           "PRIVATE KEY 7").
  - vm_compute. reflexivity.
  - vm_compute. reflexivity.
  - unfold FakeCloud.sample_world. cbn [denied]. apply not_elem_of_empty.
Defined.

(** C5 on the sample account: creating a profile that exists and reading a
    profile that does not. *)
Lemma instance_profile_failures_swallowed_witness :
  (exists w',
     IAMAdmin.create_instance_profile (IAMAdmin.New "convex" "eu-west-2")
       "svc-profile" FakeCloud.sample_world = (Return None, w') /\
     trace w' = trace FakeCloud.sample_world ++
       [EApi (CreateInstanceProfile "svc-profile" "/convex/")
             (inl (FakeCloud.fault "EntityAlreadyExists" "CreateInstanceProfile"));
        ELog ERROR true (LStr "Couldn't instance profile named '%s'.")
             [LStr "svc-profile"];
        ELog ERROR true (LStr "Error:  %s")
             [LStr (repr_error (FakeCloud.fault "EntityAlreadyExists"
                                  "CreateInstanceProfile"))]]) /\
  (exists w',
     IAMAdmin.get_instance_profile (IAMAdmin.New "convex" "eu-west-2")
       "no-such-profile" FakeCloud.sample_world = (Return None, w') /\
     trace w' = trace FakeCloud.sample_world ++
       [EApi (GetInstanceProfile "no-such-profile")
             (inl (FakeCloud.fault "NoSuchEntity" "GetInstanceProfile"));
        ELog ERROR true
             (LStr "Couldn't get instance profile named '%s' in region=%s.")
             [LStr "no-such-profile"; LStr "eu-west-2"];
        ELog ERROR true (LStr "Error:  %s")
             [LStr (repr_error (FakeCloud.fault "NoSuchEntity"
                                  "GetInstanceProfile"))]]).
Proof.
  split.
  - apply (proj1 (instance_profile_failures_swallowed
                    (IAMAdmin.New "convex" "eu-west-2") "svc-profile"
                    FakeCloud.sample_world
                    (FakeCloud.fault "EntityAlreadyExists" "CreateInstanceProfile")
                    FakeCloud.sample)).
    vm_compute. reflexivity.
  - apply (proj2 (instance_profile_failures_swallowed
                    (IAMAdmin.New "convex" "eu-west-2") "no-such-profile"
                    FakeCloud.sample_world
                    (FakeCloud.fault "NoSuchEntity" "GetInstanceProfile")
                    FakeCloud.sample)).
    vm_compute. reflexivity.
Defined.

(** C4 on the sample account: the profile is free and the role exists, the
    provider accepts the request, and the method raises [TypeError]. *)
Example add_role_instance_profile_on_sample :
  fst (request (AddRoleToInstanceProfile "idle-profile" "svc-role")
         FakeCloud.sample) = inr tt /\
  fst (IAMAdmin.add_role_instance_profile (IAMAdmin.New "convex" "eu-west-2")
         "idle-profile"
         "arn:aws:iam::123456789012:instance-profile/convex/idle-profile"
         "svc-role" FakeCloud.sample_world)
  = Raise (TypeError "'Logger' object is not callable").
Proof. vm_compute. split; reflexivity. Qed.

(** C6 on the sample account: a manager whose region is not the
    provider's. *)
Lemma create_bucket_region_mismatch_witness :
  exists w',
    StorageBucket.create_bucket
      (StorageBucket.New "Storage Bucket"
         "sth00000000-0000-4000-8000-000000000000" "us-west-1")
      FakeCloud.sample_world
    = (Raise (AttributeError "StorageBucket" "s3resources3"), w') /\
    trace w' = trace FakeCloud.sample_world ++
      [EApi (CreateBucket "sth00000000-0000-4000-8000-000000000000" "us-west-1")
            (inl (FakeCloud.fault "IllegalLocationConstraintException"
                    "CreateBucket"));
       ELog ERROR true (LStr "Couldn't create bucket named '%s' in region=%s.")
            [LStr "sth00000000-0000-4000-8000-000000000000"; LStr "us-west-1"]].
Proof.
  apply (create_bucket_region_mismatch
           (StorageBucket.New "Storage Bucket"
              "sth00000000-0000-4000-8000-000000000000" "us-west-1")
           FakeCloud.sample_world
           (FakeCloud.fault "IllegalLocationConstraintException" "CreateBucket")
           FakeCloud.sample).
  - vm_compute. reflexivity.
  - reflexivity.
Defined.

(** C7 on the sample account: an unknown security group makes the launch
    fail. *)
Lemma create_instance_failure_witness :
  let run := InstanceManagement.create_instance
               (InstanceManagement.New "eu-west-2") "/tmp/deploy.pem"
               "deploy-key" "arn:aws:iam::123456789012:role/svc-role"
               "svc-role" "#!/bin/sh" ["sg-9"] FakeCloud.sample_world in
  fst run = Raise (UnboundLocalError "instances") /\
  Forall (fun e' => is_log e' = false) (trace (snd run)).
Proof.
  intros run.
  apply (create_instance_failure
           (InstanceManagement.New "eu-west-2") "/tmp/deploy.pem"
           "deploy-key" "arn:aws:iam::123456789012:role/svc-role"
           "svc-role" "#!/bin/sh" ["sg-9"] FakeCloud.sample_world
           (snd run) (fst run) (trace (snd run))
           (EApi (RunInstances "ami-032598fcc7e9d1c7a" 1 1 "t2.micro"
                    "#!/bin/sh" ["sg-9"] "deploy-key")
                 (inl (FakeCloud.fault "InvalidGroup.NotFound" "RunInstances")))
           (FakeCloud.fault "InvalidGroup.NotFound" "RunInstances")).
  - vm_compute. reflexivity.
  - vm_compute. reflexivity.
  - vm_compute. do 3 right. left. reflexivity.
  - reflexivity.
  - discriminate.
Defined.

(** C9. The id [create_instance] returns is that of the last instance of
    the account-wide listing, whatever the launch request answered; on the
    sample account, where the listing puts the newest instance first, it is
    the id of an instance that was already running and not that of the
    instance just launched. *)
Theorem create_instance_resolves_id_by_listing :
  (forall (Cloud : Type) (provider : Provider Cloud)
          (self : InstanceManagement.t)
          (key_file key_pair role_arn role_name startup_script : string)
          (security_groups : list string) (w w' : World Cloud) (iid : string),
      InstanceManagement.create_instance self key_file key_pair role_arn
        role_name startup_script security_groups w = (Return iid, w') ->
      exists material created listing i,
        trace w' = trace w ++
          [EApi (DeleteKeyPair key_pair) (inr tt);
           EApi (CreateKeyPair key_pair) (inr material);
           EWrite key_file material;
           EApi (RunInstances "ami-032598fcc7e9d1c7a" 1 1 "t2.micro"
                   startup_script security_groups key_pair) (inr created);
           EApi DescribeInstances (inr listing)]
          ++ map instance_line listing /\
        last listing = Some i /\ iid = id i) /\
  (exists (w' : World FakeCloud.t) (launched : instance) (iid : string),
      InstanceManagement.create_instance (InstanceManagement.New "eu-west-2")
        "/tmp/deploy.pem" "deploy-key" "arn:aws:iam::123456789012:role/svc-role"
        "svc-role" "#!/bin/sh" ["sg-1"] FakeCloud.sample_world
      = (Return iid, w') /\
      In (EApi (RunInstances "ami-032598fcc7e9d1c7a" 1 1 "t2.micro"
                  "#!/bin/sh" ["sg-1"] "deploy-key") (inr [launched]))
         (trace w') /\
      iid <> id launched).
Proof.
  split.
  - intros Cloud provider. apply create_instance_returns_last_listed.
  - eexists _, (Instance "i-8" "pending"), "i-2".
    split; [vm_compute; reflexivity|]. split.
    + vm_compute. do 3 right. left. reflexivity.
    + discriminate.
Qed.

Lemma create_instance_resolves_id_by_listing_witness :
  let run := InstanceManagement.create_instance
               (InstanceManagement.New "eu-west-2") "/tmp/deploy.pem"
               "deploy-key" "arn:aws:iam::123456789012:role/svc-role"
               "svc-role" "#!/bin/sh" ["sg-1"] FakeCloud.sample_world in
  fst run = Return "i-2" /\
  exists material created listing i,
    trace (snd run) = trace FakeCloud.sample_world ++
      [EApi (DeleteKeyPair "deploy-key") (inr tt);
       EApi (CreateKeyPair "deploy-key") (inr material);
       EWrite "/tmp/deploy.pem" material;
       EApi (RunInstances "ami-032598fcc7e9d1c7a" 1 1 "t2.micro"
               "#!/bin/sh" ["sg-1"] "deploy-key") (inr created);
       EApi DescribeInstances (inr listing)]
      ++ map instance_line listing /\
    last listing = Some i /\ "i-2" = id i.
Proof.
  intros run. split; [vm_compute; reflexivity|].
  apply (proj1 create_instance_resolves_id_by_listing FakeCloud.t
           FakeCloud.provider (InstanceManagement.New "eu-west-2")
           "/tmp/deploy.pem" "deploy-key"
           "arn:aws:iam::123456789012:role/svc-role" "svc-role" "#!/bin/sh"
           ["sg-1"] FakeCloud.sample_world (snd run) "i-2").
  vm_compute. reflexivity.
Defined.

(** C3 as first stated does not hold: a prefix of 28 characters gives a
    name of 64, and a random source that repeats itself gives the same name
    twice. *)
Lemma create_bucket_name_counterexample :
  (exists name w',
     StorageBucket.create_bucket_name "sth-reports-eu-west-2-backup" tt
       FakeCloud.sample_world = (Return name, tt, w') /\
     ~ (3 <= String.length name <= 63)) /\
  (exists name w1 w2,
     StorageBucket.create_bucket_name "sth" tt FakeCloud.stuck_world
     = (Return name, tt, w1) /\
     StorageBucket.create_bucket_name "sth" tt w1 = (Return name, tt, w2)).
Proof.
  split.
  - eexists _, _. split; [reflexivity|]. vm_compute. lia.
  - eexists _, _, _. split; reflexivity.
Qed.

(** C3 as amended, on the prefix the constructor uses. *)
Lemma create_bucket_name_spec_witness :
  String.length "sth" <= 27 /\
  exists name1 name2 w1 w2,
    StorageBucket.create_bucket_name "sth" tt FakeCloud.sample_world
    = (Return name1, tt, w1) /\
    StorageBucket.create_bucket_name "sth" tt w1 = (Return name2, tt, w2) /\
    String.length name1 = String.length "sth" + 36 /\
    String.length name2 = String.length "sth" + 36 /\
    3 <= String.length name1 <= 63 /\
    3 <= String.length name2 <= 63 /\
    String.prefix "sth" name1 = true /\
    String.prefix "sth" name2 = true /\
    (name1 = name2 <->
     Uuid.uuid4_int (urandom FakeCloud.sample_world (drawn FakeCloud.sample_world))
     = Uuid.uuid4_int (urandom FakeCloud.sample_world
                         (S (drawn FakeCloud.sample_world)))).
Proof.
  split; [vm_compute; lia|].
  apply (create_bucket_name_spec "sth" FakeCloud.sample_world).
  vm_compute. lia.
Defined.

(** The in-memory provider keeps bucket policies. *)
Lemma fake_keeps_policies (bucket_name : string) (c : FakeCloud.t)
    (text : string) (c1 : FakeCloud.t) :
  request (PutBucketPolicy bucket_name text) c = (inr tt, c1) ->
  exists c2, request (GetBucketPolicy bucket_name) c1 = (inr text, c2).
Proof.
  cbn [request FakeCloud.provider FakeCloud.step].
  destruct (FakeCloud.buckets c !! bucket_name) as [old|]; [|discriminate].
  intros [= <-]. exists (FakeCloud.set_buckets c
                           (<[bucket_name := Some text]> (FakeCloud.buckets c))).
  cbn [FakeCloud.buckets FakeCloud.set_buckets].
  rewrite lookup_insert_eq. reflexivity.
Qed.


(** * Further properties *)

Section MoreFacts.
Context {Cloud : Type} `{Provider Cloud}.

(** ** InstanceManagement.create_instance: the other ways out *)

(** X1. When every request succeeds but the listing of instances comes back
    empty, the loop never binds [instance_id]: the instance has been
    launched, and [create_instance] raises [UnboundLocalError] from its
    [else] clause, with nothing logged. *)
Theorem create_instance_empty_listing (self : InstanceManagement.t)
    (key_file key_pair role_arn role_name startup_script : string)
    (security_groups : list string) (w : World Cloud)
    (c1 c2 c3 c4 : Cloud) (material : string) (created : list instance) :
  request (DeleteKeyPair key_pair) (cloud w) = (inr tt, c1) ->
  request (CreateKeyPair key_pair) c1 = (inr material, c2) ->
  key_file ∉ denied w ->
  request (RunInstances "ami-032598fcc7e9d1c7a" 1 1 "t2.micro" startup_script
             security_groups key_pair) c2 = (inr created, c3) ->
  request DescribeInstances c3 = (inr [], c4) ->
  exists w',
    InstanceManagement.create_instance self key_file key_pair role_arn
      role_name startup_script security_groups w
    = (Raise (UnboundLocalError "instance_id"), w') /\
    cloud w' = c4 /\
    trace w' = trace w ++
      [EApi (DeleteKeyPair key_pair) (inr tt);
       EApi (CreateKeyPair key_pair) (inr material);
       EWrite key_file material;
       EApi (RunInstances "ami-032598fcc7e9d1c7a" 1 1 "t2.micro"
               startup_script security_groups key_pair) (inr created);
       EApi DescribeInstances (inr [])].
Proof.
  intros H1 H2 Hden H3 H4.
  pose proof (create_instance_run self key_file key_pair role_arn role_name
                startup_script security_groups w) as Hrun.
  cbv zeta in Hrun. rewrite H1, H2 in Hrun.
  destruct (decide (key_file ∈ denied w)) as [|_]; [contradiction|].
  rewrite H3, H4 in Hrun. eexists. split; [exact Hrun|]. split; reflexivity.
Qed.

(** X2. When the key file cannot be opened for writing, [create_instance]
    has already replaced the key pair: the [OSError] is not a [ClientError],
    so it leaves the method unlogged, no instance is launched, and the new
    key material is written nowhere. *)
Theorem create_instance_key_file_denied (self : InstanceManagement.t)
    (key_file key_pair role_arn role_name startup_script : string)
    (security_groups : list string) (w : World Cloud)
    (c1 c2 : Cloud) (material : string) :
  request (DeleteKeyPair key_pair) (cloud w) = (inr tt, c1) ->
  request (CreateKeyPair key_pair) c1 = (inr material, c2) ->
  key_file ∈ denied w ->
  exists w',
    InstanceManagement.create_instance self key_file key_pair role_arn
      role_name startup_script security_groups w
    = (Raise (OSError key_file), w') /\
    cloud w' = c2 /\
    files w' = files w /\
    trace w' = trace w ++
      [EApi (DeleteKeyPair key_pair) (inr tt);
       EApi (CreateKeyPair key_pair) (inr material)].
Proof.
  intros H1 H2 Hden.
  pose proof (create_instance_run self key_file key_pair role_arn role_name
                startup_script security_groups w) as Hrun.
  cbv zeta in Hrun. rewrite H1, H2 in Hrun.
  destruct (decide (key_file ∈ denied w)) as [_|]; [|contradiction].
  eexists. split; [exact Hrun|]. repeat split.
Qed.

Lemma instance_lines_logged (listing : list instance) :
  List.filter is_log (map instance_line listing) = map instance_line listing.
Proof.
  induction listing as [|x xs IH]; [reflexivity|].
  cbn [map List.filter instance_line is_log]. f_equal. exact IH.
Qed.

(** X3. When the four requests succeed, the key file can be written and the
    listing is not empty, [create_instance] returns the id of the last
    listed instance, having logged one debug line per listed instance. *)
Theorem create_instance_returns (self : InstanceManagement.t)
    (key_file key_pair role_arn role_name startup_script : string)
    (security_groups : list string) (w : World Cloud)
    (c1 c2 c3 c4 : Cloud) (material : string)
    (created listing : list instance) (i : instance) :
  request (DeleteKeyPair key_pair) (cloud w) = (inr tt, c1) ->
  request (CreateKeyPair key_pair) c1 = (inr material, c2) ->
  key_file ∉ denied w ->
  request (RunInstances "ami-032598fcc7e9d1c7a" 1 1 "t2.micro" startup_script
             security_groups key_pair) c2 = (inr created, c3) ->
  request DescribeInstances c3 = (inr (listing ++ [i]), c4) ->
  exists w',
    InstanceManagement.create_instance self key_file key_pair role_arn
      role_name startup_script security_groups w = (Return (id i), w') /\
    cloud w' = c4 /\
    List.filter is_log (trace w')
    = List.filter is_log (trace w) ++ map instance_line (listing ++ [i]).
Proof.
  intros H1 H2 Hden H3 H4.
  pose proof (create_instance_run self key_file key_pair role_arn role_name
                startup_script security_groups w) as Hrun.
  cbv zeta in Hrun. rewrite H1, H2 in Hrun.
  destruct (decide (key_file ∈ denied w)) as [|_]; [contradiction|].
  rewrite H3, H4 in Hrun. rewrite last_snoc in Hrun.
  eexists. split; [exact Hrun|]. split; [reflexivity|].
  cbn [trace advance]. rewrite List.filter_app. f_equal.
  cbn [List.filter is_log app]. apply instance_lines_logged.
Qed.

(** ** IAMAdmin: instance profiles never raise *)

(** X4. [create_instance_profile] and [get_instance_profile] return in every
    world: the ARN of the response when the provider accepts the request,
    and [None] exactly when it rejects it. A caller cannot tell a rejected
    request from the result alone, and never sees the error. *)
Theorem instance_profile_never_raises (self : IAMAdmin.t)
    (profile_name : string) (w : World Cloud) :
  (exists r w',
     IAMAdmin.create_instance_profile self profile_name w = (Return r, w') /\
     r = match fst (request (CreateInstanceProfile profile_name
                               ("/" +:+ IAMAdmin.path self +:+ "/")) (cloud w)) with
         | inr arn => Some arn
         | inl _ => None
         end) /\
  (exists r w',
     IAMAdmin.get_instance_profile self profile_name w = (Return r, w') /\
     r = match fst (request (GetInstanceProfile profile_name) (cloud w)) with
         | inr arn => Some arn
         | inl _ => None
         end).
Proof.
  split.
  - unfold IAMAdmin.create_instance_profile, run, try_except_else.
    destruct (request _ (cloud w)) as [[ce|arn] c'] eqn:Hreq.
    + erewrite bind_call_inl by exact Hreq. eexists _, _. split; reflexivity.
    + erewrite bind_call_inr by exact Hreq. eexists _, _. split; reflexivity.
  - unfold IAMAdmin.get_instance_profile, run, try_except_else.
    destruct (request _ (cloud w)) as [[ce|arn] c'] eqn:Hreq.
    + erewrite bind_call_inl by exact Hreq. eexists _, _. split; reflexivity.
    + erewrite bind_call_inr by exact Hreq. eexists _, _. split; reflexivity.
Qed.


(** ** StorageBucket.create_bucket: the other ways out *)

(** [create_bucket] once the provider has accepted the request. *)
Lemma create_bucket_accepted (self : StorageBucket.t) (w : World Cloud)
    (c1 : Cloud) :
  let create := CreateBucket (StorageBucket.bucketname self)
                  (StorageBucket.current_region self) in
  let wait := WaitUntilBucketExists (StorageBucket.bucketname self) in
  request create (cloud w) = (inr tt, c1) ->
  match request wait c1 with
  | (inl ce, c2) =>
      StorageBucket.create_bucket self w
      = (Raise (WaiterError "BucketExists"),
         advance w c2 (files w) [EApi create (inr tt); EApi wait (inl ce)])
  | (inr _, c2) =>
      StorageBucket.create_bucket self w
      = (Return (StorageBucket.bucketname self),
         advance w c2 (files w)
           [EApi create (inr tt); EApi wait (inr tt);
            ELog INFO false (LStr "Created bucket '%s' in region=%s")
                 [LStr (StorageBucket.bucketname self);
                  LStr (session_region w)];
            EPrint [StorageBucket.bucketname self;
                    StorageBucket.current_region self]])
  end.
Proof.
  intros create wait H1.
  unfold StorageBucket.create_bucket, run, try_except_else.
  fold create. erewrite bind_call_inr by exact H1. fold wait.
  destruct (request wait c1) as [[ce|[]] c2] eqn:H2.
  - erewrite bind_call_inl by exact H2. world_eq.
  - erewrite bind_call_inr by exact H2. rewrite getattr_s3resource.
    cbv [StorageBucket.region_name]. world_eq.
Qed.

(** X5. When the bucket is created but the waiter gives up,
    [create_bucket] raises the waiter's error, which is not a [ClientError]:
    the handler is not entered, nothing is logged, and the bucket that was
    created stays. *)
Theorem create_bucket_waiter_gives_up (self : StorageBucket.t)
    (w : World Cloud) (c1 c2 : Cloud) (ce : client_error) :
  request (CreateBucket (StorageBucket.bucketname self)
             (StorageBucket.current_region self)) (cloud w) = (inr tt, c1) ->
  request (WaitUntilBucketExists (StorageBucket.bucketname self)) c1
  = (inl ce, c2) ->
  exists w',
    StorageBucket.create_bucket self w
    = (Raise (WaiterError "BucketExists"), w') /\
    cloud w' = c2 /\
    List.filter is_log (trace w') = List.filter is_log (trace w).
Proof.
  intros H1 H2.
  pose proof (create_bucket_accepted self w c1 H1) as Hrun.
  cbv zeta in Hrun. rewrite H2 in Hrun.
  eexists. split; [exact Hrun|]. split; [reflexivity|].
  cbn [trace advance]. rewrite List.filter_app. cbn. apply app_nil_r.
Qed.

(** X6. When the bucket is created and the waiter confirms it,
    [create_bucket] returns the bucket named [self.bucketname], after one
    info record and one printed line. *)
Theorem create_bucket_returns (self : StorageBucket.t)
    (w : World Cloud) (c1 c2 : Cloud) :
  request (CreateBucket (StorageBucket.bucketname self)
             (StorageBucket.current_region self)) (cloud w) = (inr tt, c1) ->
  request (WaitUntilBucketExists (StorageBucket.bucketname self)) c1
  = (inr tt, c2) ->
  exists w',
    StorageBucket.create_bucket self w
    = (Return (StorageBucket.bucketname self), w') /\
    cloud w' = c2 /\
    trace w' = trace w ++
      [EApi (CreateBucket (StorageBucket.bucketname self)
               (StorageBucket.current_region self)) (inr tt);
       EApi (WaitUntilBucketExists (StorageBucket.bucketname self)) (inr tt);
       ELog INFO false (LStr "Created bucket '%s' in region=%s")
            [LStr (StorageBucket.bucketname self); LStr (session_region w)];
       EPrint [StorageBucket.bucketname self;
               StorageBucket.current_region self]].
Proof.
  intros H1 H2.
  pose proof (create_bucket_accepted self w c1 H1) as Hrun.
  cbv zeta in Hrun. rewrite H2 in Hrun.
  eexists. split; [exact Hrun|]. split; reflexivity.
Qed.

(** X7. When the provider rejects the request with any code but the
    region-mismatch one, [create_bucket] logs the failure once and raises
    the provider's error again, unchanged. *)
Theorem create_bucket_other_failure (self : StorageBucket.t)
    (w : World Cloud) (ce : client_error) (c' : Cloud) :
  request (CreateBucket (StorageBucket.bucketname self)
             (StorageBucket.current_region self)) (cloud w) = (inl ce, c') ->
  err_code ce <> "IllegalLocationConstraintException" ->
  exists w',
    StorageBucket.create_bucket self w = (Raise (ClientError ce), w') /\
    trace w' = trace w ++
      [EApi (CreateBucket (StorageBucket.bucketname self)
               (StorageBucket.current_region self)) (inl ce);
       ELog ERROR true
            (LStr "Couldn't create bucket named '%s' in region=%s.")
            [LStr (StorageBucket.bucketname self);
             LStr (StorageBucket.current_region self)]].
Proof.
  intros Hreq Hcode.
  pose proof (create_bucket_rejected self w) as Hrun.
  rewrite Hreq in Hrun. apply String.eqb_neq in Hcode. rewrite Hcode in Hrun.
  eexists. split; [exact Hrun|].
  cbv [emit with_cloud trace]. rewrite <- app_assoc. reflexivity.
Qed.

(** ** StorageBucket: policies, the other ways out *)

(** X8. A provider failure in [put_policy] or [get_policy] is logged once,
    and the provider's error is raised again, unchanged. *)
Theorem policy_failures_reraised (self : StorageBucket.t)
    (bucket_name : string) (policy : Json.t) (w : World Cloud)
    (ce : client_error) (c' : Cloud) :
  (request (PutBucketPolicy bucket_name (Json.dumps policy)) (cloud w)
   = (inl ce, c') ->
   exists w',
     StorageBucket.put_policy self bucket_name policy w
     = (Raise (ClientError ce), w') /\
     trace w' = trace w ++
       [EApi (PutBucketPolicy bucket_name (Json.dumps policy)) (inl ce);
        ELog ERROR true (LStr "Couldn't apply policy to bucket '%s'.")
             [LStr bucket_name]]) /\
  (request (GetBucketPolicy bucket_name) (cloud w) = (inl ce, c') ->
   exists w',
     StorageBucket.get_policy self bucket_name w
     = (Raise (ClientError ce), w') /\
     trace w' = trace w ++
       [EApi (GetBucketPolicy bucket_name) (inl ce);
        ELog ERROR true (LStr "Couldn't get policy for bucket '%s'.")
             [LStr bucket_name]]).
Proof.
  split; intros Hreq.
  - unfold StorageBucket.put_policy, run, try_except_else.
    erewrite bind_call_inl by exact Hreq.
    eexists. split; [reflexivity|].
    cbv [emit with_cloud trace bind log_exception raise].
    rewrite <- app_assoc. reflexivity.
  - unfold StorageBucket.get_policy, run, try_except_else.
    erewrite bind_call_inl by exact Hreq.
    eexists. split; [reflexivity|].
    cbv [emit with_cloud trace bind log_exception raise].
    rewrite <- app_assoc. reflexivity.
Qed.


(** ** StorageBucket: the constructor and the names it makes *)

(** X10. [__init__] sends no request and logs nothing; it takes one draw
    from the random source, and the bucket name it stores is 39 characters
    long, within the 3 to 63 the comment in [create_bucket_name] asks for. *)
Theorem init_bucket_name (w : World Cloud) :
  exists self w1,
    StorageBucket.init w = (Return self, w1) /\
    String.length (StorageBucket.bucketname self) = 39 /\
    StorageBucket.current_region self = session_region w /\
    drawn w1 = S (drawn w) /\
    cloud w1 = cloud w /\ trace w1 = trace w /\ files w1 = files w.
Proof.
  eexists _, _. split; [reflexivity|].
  cbn [StorageBucket.bucketname]. rewrite string_length_app, uuid_str_length.
  repeat split.
Qed.

Lemma hex_digit_uuid_char (d : N) :
  (d < 16)%N -> uuid_char (hex_digit d) = true.
Proof.
  intros Hd. destruct d as [|p]; [reflexivity|].
  do 4 (destruct p as [p|p|]; try reflexivity; try lia).
Qed.

Lemma hex_digits_uuid_chars (k : nat) (n : N) :
  Forall (fun c => uuid_char c = true) (Uuid.hex_digits k n).
Proof.
  revert n. induction k as [|k IH]; intros n; [constructor|].
  cbn [Uuid.hex_digits]. apply Forall_app. split; [apply IH|].
  constructor; [|constructor]. apply hex_digit_uuid_char, N.mod_lt. discriminate.
Qed.

(** X11. Whatever the random draw, what [create_bucket_name] appends to the
    prefix is 36 characters, each a digit, a letter from [a] to [f] or a
    hyphen: the name is fit for a bucket whenever the prefix is. *)
Theorem create_bucket_name_characters (bucket_prefix : string)
    (w : World Cloud) :
  exists suffix w',
    StorageBucket.create_bucket_name bucket_prefix tt w
    = (Return (bucket_prefix +:+ suffix), tt, w') /\
    String.length suffix = 36 /\
    Forall (fun c => uuid_char c = true) (list_ascii_of_string suffix).
Proof.
  eexists _, _. split; [apply create_bucket_name_run|].
  split; [apply uuid_str_length|].
  unfold Uuid.str. rewrite list_ascii_of_string_of_list_ascii.
  pose proof (hex_digits_uuid_chars 32
                (Uuid.uuid4_int (urandom w (drawn w)))) as Hhex.
  repeat (apply Forall_app; split);
    try (repeat constructor; fail);
    repeat (first [apply Forall_take | apply Forall_drop]); exact Hhex.
Qed.


(** ** IAMAdmin.add_role_instance_profile: what is left behind *)


End MoreFacts.

(** ** Temporary files *)

Section TempFiles.
Context {Cloud : Type}.

Lemma take_hex_digits (k j : nat) (x : N) :
  take k (Uuid.hex_digits (k + j) x)
  = Uuid.hex_digits k (x / 16 ^ N.of_nat j)%N.
Proof.
  revert x. induction j as [|j IH]; intros x.
  - rewrite Nat.add_0_r, take_ge by (rewrite hex_digits_length; lia).
    change (16 ^ N.of_nat 0)%N with 1%N. rewrite N.div_1_r. reflexivity.
  - rewrite Nat.add_succ_r. cbn [Uuid.hex_digits].
    rewrite take_app_le by (rewrite hex_digits_length; lia).
    rewrite IH, Nat2N.inj_succ, N.pow_succ_r', N.Div0.div_div. reflexivity.
Qed.

Lemma hex_digits_eq_iff (k : nat) (a b : N) :
  Uuid.hex_digits k a = Uuid.hex_digits k b <->
  (a mod 16 ^ N.of_nat k = b mod 16 ^ N.of_nat k)%N.
Proof.
  split.
  - intros E. apply (f_equal hex_number) in E.
    rewrite !hex_number_digits in E. exact E.
  - revert a b. induction k as [|k IH]; intros a b E; [reflexivity|].
    rewrite Nat2N.inj_succ, N.pow_succ_r' in E.
    rewrite !(N.Div0.mod_mul_r _ 16) in E.
    assert (Ha : (a mod 16 < 16)%N) by (apply N.mod_lt; discriminate).
    assert (Hb : (b mod 16 < 16)%N) by (apply N.mod_lt; discriminate).
    cbn [Uuid.hex_digits].
    specialize (IH (a / 16) (b / 16))%N.
    generalize dependent ((a / 16) mod 16 ^ N.of_nat k)%N.
    generalize dependent ((b / 16) mod 16 ^ N.of_nat k)%N.
    generalize dependent (a mod 16)%N. generalize dependent (b mod 16)%N.
    intros p Hp q Hq r s IH E.
    assert (q = p /\ s = r) as [-> ->] by lia. rewrite IH; reflexivity.
Qed.

(** The six digits [create_temp_file] keeps are the first 24 bits drawn:
    the version and variant bits of the UUID come later. *)
Lemma uuid4_int_leading (n : N) :
  (Uuid.uuid4_int n / 16 ^ 26 = leading_bits n)%N.
Proof.
  unfold Uuid.uuid4_int, leading_bits.
  replace (16 ^ 26)%N with (2 ^ 104)%N by reflexivity.
  rewrite <- !N.shiftr_div_pow2.
  rewrite N.shiftr_lor, N.shiftr_ldiff, N.shiftr_lor, N.shiftr_ldiff.
  replace (N.shiftr (N.shiftl 4 76) 104) with 0%N by reflexivity.
  replace (N.shiftr (N.shiftl 0xf000 64) 104) with 0%N by reflexivity.
  replace (N.shiftr (N.shiftl 0x8000 48) 104) with 0%N by reflexivity.
  replace (N.shiftr (N.shiftl 0xc000 48) 104) with 0%N by reflexivity.
  rewrite !N.lor_0_r, !N.ldiff_0_r. reflexivity.
Qed.

Lemma leading_bits_bound (n : N) : (leading_bits n < 16 ^ 6)%N.
Proof.
  unfold leading_bits. apply N.Div0.div_lt_upper_bound.
  replace (2 ^ 104 * 16 ^ 6)%N with (2 ^ 128)%N by reflexivity.
  apply N.mod_lt. discriminate.
Qed.

Lemma hex6_leading (n : N) :
  StorageBucketFiles.hex6 (Uuid.uuid4_int n)
  = string_of_list_ascii (Uuid.hex_digits 6 (leading_bits n)).
Proof.
  unfold StorageBucketFiles.hex6. change 32 with (6 + 26).
  rewrite take_hex_digits. change (N.of_nat 26) with 26%N.
  rewrite uuid4_int_leading. reflexivity.
Qed.

Lemma hex6_length (u : N) : String.length (StorageBucketFiles.hex6 u) = 6.
Proof.
  unfold StorageBucketFiles.hex6.
  rewrite string_of_list_ascii_length, length_take, hex_digits_length.
  reflexivity.
Qed.

Lemma hex6_eq_iff (m n : N) :
  StorageBucketFiles.hex6 (Uuid.uuid4_int m)
  = StorageBucketFiles.hex6 (Uuid.uuid4_int n)
  <-> leading_bits m = leading_bits n.
Proof.
  rewrite !hex6_leading. split.
  - intros E. apply string_of_list_ascii_inj, hex_digits_eq_iff in E.
    change (N.of_nat 6) with 6%N in E.
    rewrite !N.mod_small in E by apply leading_bits_bound. exact E.
  - intros ->. reflexivity.
Qed.

Lemma string_app_inj_l (a b c : string) :
  String.length a = String.length b -> a +:+ c = b +:+ c -> a = b.
Proof.
  revert b. induction a as [|x a IH]; intros [|y b] L E;
    try discriminate L; [reflexivity|].
  change (String x (a +:+ c) = String y (b +:+ c)) in E.
  injection E as -> E. injection L as L. f_equal. apply IH; assumption.
Qed.

Lemma repeat_string_length (n : nat) (s : string) :
  String.length (repeat_string n s) = n * String.length s.
Proof.
  induction n as [|n IH]; [reflexivity|].
  cbn [repeat_string Nat.mul]. rewrite string_length_app, IH. reflexivity.
Qed.

(** [create_temp_file] when the file can be opened. *)
Lemma create_temp_file_run (self : StorageBucket.t) (size : Z)
    (file_name file_content : string) (w : World Cloud) :
  let random_file_name :=
    StorageBucketFiles.hex6 (Uuid.uuid4_int (urandom w (drawn w)))
    +:+ file_name in
  let text := repeat_string (Z.to_nat size) file_content in
  random_file_name ∉ denied w ->
  StorageBucketFiles.create_temp_file self size file_name file_content w
  = (Return random_file_name,
     MkWorld (cloud w) (<[random_file_name := text]> (files w)) (denied w)
             (urandom w) (S (drawn w)) (session_region w)
             (trace w ++ [EWrite random_file_name text])).
Proof.
  intros random_file_name text Hden.
  unfold StorageBucketFiles.create_temp_file, run, bind, Uuid.uuid4, write_file.
  cbn [denied]. fold random_file_name text.
  destruct (decide (random_file_name ∈ denied w)) as [|_]; [contradiction|].
  reflexivity.
Qed.


(** X13. Only the first 24 bits of each draw reach the name of a temporary
    file: two calls for the same [file_name] return the same name exactly
    when their draws agree on those bits, and the second file then replaces
    the first. *)
Theorem create_temp_file_collision (self : StorageBucket.t) (size1 size2 : Z)
    (file_name content1 content2 : string) (w : World Cloud) :
  denied w = ∅ ->
  exists name1 name2 w1 w2,
    StorageBucketFiles.create_temp_file self size1 file_name content1 w
    = (Return name1, w1) /\
    StorageBucketFiles.create_temp_file self size2 file_name content2 w1
    = (Return name2, w2) /\
    (name1 = name2 <->
     leading_bits (urandom w (drawn w))
     = leading_bits (urandom w (S (drawn w)))) /\
    (name1 = name2 ->
     files w2 !! name1 = Some (repeat_string (Z.to_nat size2) content2)).
Proof.
  intros Hden. eexists _, _, _, _.
  split; [apply create_temp_file_run; rewrite Hden; apply not_elem_of_empty|].
  split; [apply create_temp_file_run; cbn [denied]; rewrite Hden;
          apply not_elem_of_empty|].
  cbn [urandom drawn files]. split.
  - rewrite <- hex6_eq_iff. split; [|intros ->; reflexivity].
    apply string_app_inj_l. rewrite !hex6_length. reflexivity.
  - intros ->. apply lookup_insert_eq.
Qed.

End TempFiles.

(** ** Roles, policies and buckets *)

Section RemainingMethods.
Context {Cloud : Type} `{MoreProvider Cloud}.

Lemma bind_call_more_inl {L B} (c : more_api_call)
    (k : more_response c -> M Cloud L B) l (w : World Cloud) ce c' :
  more_request c (cloud w) = (inl ce, c') ->
  bind (call_more c) k l w = (Raise (more_exn_of c ce), l, with_cloud c' w).
Proof. intros E. unfold bind, call_more. rewrite E. reflexivity. Qed.

Lemma bind_call_more_inr {L B} (c : more_api_call)
    (k : more_response c -> M Cloud L B) l (w : World Cloud) a c' :
  more_request c (cloud w) = (inr a, c') ->
  bind (call_more c) k l w = k a l (with_cloud c' w).
Proof. intros E. unfold bind, call_more. rewrite E. reflexivity. Qed.

(** The loop of [list_buckets]. *)
Lemma print_names_run (names : list string) (w : World Cloud) :
  for_each names (fun bucket => print ["  " +:+ bucket]) tt w
  = (Return (map (fun _ => tt) names), tt,
     advance w (cloud w) (files w)
       (map (fun bucket => EPrint ["  " +:+ bucket]) names)).
Proof.
  revert w. induction names as [|b names IH]; intros w.
  - cbn [for_each map]. rewrite advance_nil. reflexivity.
  - cbn [for_each map]. unfold bind at 1. unfold print at 1.
    unfold bind at 1. rewrite IH. world_eq.
Qed.

(** X14. [bucket_exists] returns in every world: [True] exactly when the
    provider accepts the [HeadBucket] request, and [False] for every
    rejection, whatever its code, after one log record; a caller cannot
    tell a missing bucket from one it may not read. *)
Theorem bucket_exists_never_raises (self : StorageBucket.t)
    (bucket_name : string) (w : World Cloud) :
  exists w',
    StorageBucketFiles.bucket_exists self bucket_name w
    = (Return match fst (more_request (HeadBucket bucket_name) (cloud w)) with
              | inr _ => true
              | inl _ => false
              end, w') /\
    cloud w' = snd (more_request (HeadBucket bucket_name) (cloud w)) /\
    trace w' = trace w ++
      [match fst (more_request (HeadBucket bucket_name) (cloud w)) with
       | inr _ =>
           ELog INFO false (LStr "Bucket %s exists.") [LStr bucket_name]
       | inl _ =>
           ELog WARNING false
             (LStr "Bucket %s doesn't exist or you don't have access to it.")
             [LStr bucket_name]
       end].
Proof.
  unfold StorageBucketFiles.bucket_exists, run. unfold bind at 1.
  unfold try_except_else.
  destruct (more_request (HeadBucket bucket_name) (cloud w))
    as [[ce|[]] c'] eqn:Hreq.
  - erewrite bind_call_more_inl by exact Hreq.
    eexists. split; [reflexivity|]. split; reflexivity.
  - erewrite bind_call_more_inr by exact Hreq.
    eexists. split; [reflexivity|]. split; reflexivity.
Qed.

(** X15. [list_buckets] prints the heading and then one line per bucket,
    in the order of the response: the heading alone for an account without
    buckets. It has no handler: a failure of the request leaves the method
    with nothing printed and nothing logged. *)
Theorem list_buckets_prints (self : StorageBucket.t) (w : World Cloud)
    (c' : Cloud) :
  (forall names,
     more_request ListBuckets (cloud w) = (inr names, c') ->
     exists w',
       StorageBucketFiles.list_buckets self w = (Return tt, w') /\
       trace w' = trace w ++
         EPrint ["Existing buckets:"]
         :: map (fun bucket => EPrint ["  " +:+ bucket]) names) /\
  (forall ce,
     more_request ListBuckets (cloud w) = (inl ce, c') ->
     exists w',
       StorageBucketFiles.list_buckets self w = (Raise (ClientError ce), w') /\
       trace w' = trace w).
Proof.
  split.
  - intros names Hreq. unfold StorageBucketFiles.list_buckets, run.
    erewrite bind_call_more_inr by exact Hreq.
    unfold bind at 1. unfold print at 1. unfold bind at 1.
    rewrite print_names_run. eexists. split; [reflexivity|].
    cbv [ret advance emit with_cloud trace]. rewrite <- app_assoc. reflexivity.
  - intros ce Hreq. unfold StorageBucketFiles.list_buckets, run.
    erewrite bind_call_more_inl by exact Hreq.
    eexists. split; reflexivity.
Qed.

(** X16. The three ways out of [delete_bucket]. A rejected delete is logged
    once and raised again, and the waiter is not asked. When the delete is
    accepted but the waiter gives up, its error is not a [ClientError]: it
    leaves the method with nothing logged, although the bucket is deleted.
    Otherwise the method logs one info record and returns. *)
Theorem delete_bucket_outcomes (self : StorageBucket.t) (bucket : string)
    (w : World Cloud) (c1 : Cloud) :
  (forall ce,
     more_request (DeleteBucket bucket) (cloud w) = (inl ce, c1) ->
     exists w',
       StorageBucketFiles.delete_bucket self bucket w
       = (Raise (ClientError ce), w') /\
       cloud w' = c1 /\
       trace w' = trace w ++
         [ELog ERROR true (LStr "Couldn't delete bucket %s.") [LStr bucket]]) /\
  (forall ce c2,
     more_request (DeleteBucket bucket) (cloud w) = (inr tt, c1) ->
     more_request (WaitUntilBucketNotExists bucket) c1 = (inl ce, c2) ->
     exists w',
       StorageBucketFiles.delete_bucket self bucket w
       = (Raise (WaiterError "BucketNotExists"), w') /\
       cloud w' = c2 /\
       trace w' = trace w) /\
  (forall c2,
     more_request (DeleteBucket bucket) (cloud w) = (inr tt, c1) ->
     more_request (WaitUntilBucketNotExists bucket) c1 = (inr tt, c2) ->
     exists w',
       StorageBucketFiles.delete_bucket self bucket w = (Return tt, w') /\
       cloud w' = c2 /\
       trace w' = trace w ++
         [ELog INFO false (LStr "Bucket %s successfully deleted.")
               [LStr bucket]]).
Proof.
  split; [|split].
  - intros ce H1. unfold StorageBucketFiles.delete_bucket, run, try_except_else.
    erewrite bind_call_more_inl by exact H1.
    eexists. split; [reflexivity|]. split; reflexivity.
  - intros ce c2 H1 H2.
    unfold StorageBucketFiles.delete_bucket, run, try_except_else.
    erewrite bind_call_more_inr by exact H1.
    erewrite bind_call_more_inl by exact H2.
    eexists. split; [reflexivity|]. split; reflexivity.
  - intros c2 H1 H2.
    unfold StorageBucketFiles.delete_bucket, run, try_except_else.
    erewrite bind_call_more_inr by exact H1.
    erewrite bind_call_more_inr by exact H2.
    eexists. split; [reflexivity|]. split; reflexivity.
Qed.

(** X17. [create_policy] does not undo what it did: when the policy is
    created but cannot be attached to the role, the error is logged twice
    and raised again, and the provider is left as the failed attachment
    left it, with the new policy in place. *)
Theorem create_policy_orphan (self : IAMAdmin.t) (policy_content : Json.t)
    (policy_name role_name : string) (w : World Cloud)
    (policy_arn : string) (ce : client_error) (c1 c2 : Cloud) :
  more_request (CreatePolicy policy_name (Json.dumps policy_content)) (cloud w)
  = (inr policy_arn, c1) ->
  more_request (AttachRolePolicy policy_arn role_name) c1 = (inl ce, c2) ->
  exists w',
    IAMAdminRoles.create_policy self policy_content policy_name role_name w
    = (Raise (ClientError ce), w') /\
    cloud w' = c2 /\
    trace w' = trace w ++
      [ELog ERROR true
            (LStr "Couldn't create policy named '%s' for role_name %s.")
            [LStr policy_name; LStr role_name];
       ELog ERROR true (LStr "Error:  %s") [LStr (repr_error ce)]].
Proof.
  intros H1 H2. unfold IAMAdminRoles.create_policy, run, try_except_else.
  erewrite bind_call_more_inr by exact H1.
  erewrite bind_call_more_inl by exact H2.
  eexists. split; [reflexivity|]. split; [reflexivity|].
  cbv [bind log_exception raise emit with_cloud trace].
  rewrite <- app_assoc. reflexivity.
Qed.

(** X18. When the policy is created and attached, [create_policy] returns
    the response to the creation, after one debug record that shows it
    with its ARN. *)
Theorem create_policy_returns (self : IAMAdmin.t) (policy_content : Json.t)
    (policy_name role_name : string) (w : World Cloud)
    (policy_arn : string) (c1 c2 : Cloud) :
  more_request (CreatePolicy policy_name (Json.dumps policy_content)) (cloud w)
  = (inr policy_arn, c1) ->
  more_request (AttachRolePolicy policy_arn role_name) c1 = (inr tt, c2) ->
  exists w',
    IAMAdminRoles.create_policy self policy_content policy_name role_name w
    = (Return policy_arn, w') /\
    cloud w' = c2 /\
    trace w' = trace w ++
      [ELog DEBUG false (LStr " Created IAM policy: %s, arn: %s")
            [LResponse; LStr policy_arn]].
Proof.
  intros H1 H2. unfold IAMAdminRoles.create_policy, run, try_except_else.
  erewrite bind_call_more_inr by exact H1.
  erewrite bind_call_more_inr by exact H2.
  eexists. split; [reflexivity|]. split; reflexivity.
Qed.

(** X19. The trust document [create_role] sends is JSON text that reads
    back as the trust policy for [ec2.amazonaws.com]. The role is asked for
    under the path ['/' + self.path + '/'] with sessions of 3600 seconds:
    when the provider accepts, its ARN is returned after one debug record;
    when it rejects, the failure is logged once with the role name and the
    region, and raised again. *)
Theorem create_role_outcomes (self : IAMAdmin.t)
    (role_name role_description : string) (w : World Cloud) (c' : Cloud) :
  let create := CreateRole ("/" +:+ IAMAdmin.path self +:+ "/") role_name
                  (Json.dumps IAMAdminRoles.trust_policy)
                  role_description 3600 in
  Json.loads (Json.dumps IAMAdminRoles.trust_policy)
  = Some IAMAdminRoles.trust_policy /\
  (forall role_arn,
     more_request create (cloud w) = (inr role_arn, c') ->
     exists w',
       IAMAdminRoles.create_role self role_name role_description w
       = (Return role_arn, w') /\
       cloud w' = c' /\
       trace w' = trace w ++
         [ELog DEBUG false (LStr " Created IAM role: %s") [LStr role_arn]]) /\
  (forall ce,
     more_request create (cloud w) = (inl ce, c') ->
     exists w',
       IAMAdminRoles.create_role self role_name role_description w
       = (Raise (ClientError ce), w') /\
       cloud w' = c' /\
       trace w' = trace w ++
         [ELog ERROR true
               (LStr "Couldn't create role named '%s' in region=%s.")
               [LStr role_name; LStr (IAMAdmin.region self)]]).
Proof.
  intros create. split; [vm_compute; reflexivity|]. split.
  - intros role_arn Hreq. unfold IAMAdminRoles.create_role, run, try_except_else.
    fold create. erewrite bind_call_more_inr by exact Hreq.
    eexists. split; [reflexivity|]. split; reflexivity.
  - intros ce Hreq. unfold IAMAdminRoles.create_role, run, try_except_else.
    fold create. erewrite bind_call_more_inl by exact Hreq.
    eexists. split; [reflexivity|]. split; reflexivity.
Qed.

End RemainingMethods.

(** ** The further properties on the in-memory providers *)

(** X1 where the listing lags behind the launch. *)
Lemma create_instance_empty_listing_witness :
  exists w',
    InstanceManagement.create_instance (InstanceManagement.New "eu-west-2")
      "/tmp/deploy.pem" "deploy-key" "arn:aws:iam::123456789012:role/svc-role"
      "svc-role" "#!/bin/sh" ["sg-1"] Lagging.sample_world
    = (Raise (UnboundLocalError "instance_id"), w') /\
    files w' !! "/tmp/deploy.pem" = Some "PRIVATE KEY 7".
Proof.
  edestruct (create_instance_empty_listing
               (InstanceManagement.New "eu-west-2") "/tmp/deploy.pem"
               "deploy-key" "arn:aws:iam::123456789012:role/svc-role"
               "svc-role" "#!/bin/sh" ["sg-1"] Lagging.sample_world)
    as [w' [E _]].
  - reflexivity.
  - reflexivity.
  - unfold Lagging.sample_world. cbn [denied]. apply not_elem_of_empty.
  - reflexivity.
  - reflexivity.
  - exists w'. split; [exact E|].
    apply (f_equal snd) in E. cbn [snd] in E. subst w'.
    vm_compute. reflexivity.
Defined.

(** X2 for a process that may not write the key file. *)
Lemma create_instance_key_file_denied_witness :
  exists w',
    InstanceManagement.create_instance (InstanceManagement.New "eu-west-2")
      "/etc/deploy.pem" "deploy-key" "arn:aws:iam::123456789012:role/svc-role"
      "svc-role" "#!/bin/sh" ["sg-1"] Account.locked_world
    = (Raise (OSError "/etc/deploy.pem"), w') /\
    files w' = files Account.locked_world.
Proof.
  edestruct (create_instance_key_file_denied
               (InstanceManagement.New "eu-west-2") "/etc/deploy.pem"
               "deploy-key" "arn:aws:iam::123456789012:role/svc-role"
               "svc-role" "#!/bin/sh" ["sg-1"] Account.locked_world)
    as [w' [E [_ [F _]]]].
  - reflexivity.
  - reflexivity.
  - unfold Account.locked_world. cbn [denied]. apply elem_of_singleton.
    reflexivity.
  - exists w'. split; [exact E|exact F].
Defined.

(** X3 on the sample account. *)
Lemma create_instance_returns_witness :
  exists w',
    InstanceManagement.create_instance (InstanceManagement.New "eu-west-2")
      "/tmp/deploy.pem" "deploy-key" "arn:aws:iam::123456789012:role/svc-role"
      "svc-role" "#!/bin/sh" ["sg-1"] FakeCloud.sample_world
    = (Return "i-2", w') /\
    List.filter is_log (trace w')
    = map instance_line [Instance "i-8" "pending"; Instance "i-2" "running"].
Proof.
  edestruct (fun c1 c2 c3 c4 material created =>
               create_instance_returns
                 (InstanceManagement.New "eu-west-2") "/tmp/deploy.pem"
                 "deploy-key" "arn:aws:iam::123456789012:role/svc-role"
                 "svc-role" "#!/bin/sh" ["sg-1"] FakeCloud.sample_world
                 c1 c2 c3 c4 material created
                 [Instance "i-8" "pending"] (Instance "i-2" "running"))
    as [w' [E [_ F]]].
  - reflexivity.
  - reflexivity.
  - unfold FakeCloud.sample_world. cbn [denied]. apply not_elem_of_empty.
  - reflexivity.
  - reflexivity.
  - exists w'. split; [exact E|exact F].
Defined.

(** X5 where the waiter gives up. *)
Lemma create_bucket_waiter_gives_up_witness :
  exists w',
    StorageBucket.create_bucket
      (StorageBucket.New "Storage Bucket" "sth-archive" "eu-west-2")
      Lagging.sample_world
    = (Raise (WaiterError "BucketExists"), w') /\
    List.filter is_log (trace w') = [].
Proof.
  edestruct (create_bucket_waiter_gives_up
               (StorageBucket.New "Storage Bucket" "sth-archive" "eu-west-2")
               Lagging.sample_world)
    as [w' [E [_ F]]].
  - reflexivity.
  - reflexivity.
  - exists w'. split; [exact E|exact F].
Defined.

(** X6 on the sample account. *)
Lemma create_bucket_returns_witness :
  exists w',
    StorageBucket.create_bucket
      (StorageBucket.New "Storage Bucket" "sth-archive" "eu-west-2")
      FakeCloud.sample_world
    = (Return "sth-archive", w') /\
    FakeCloud.buckets (cloud w') !! "sth-archive" = Some None.
Proof.
  edestruct (create_bucket_returns
               (StorageBucket.New "Storage Bucket" "sth-archive" "eu-west-2")
               FakeCloud.sample_world)
    as [w' [E [F _]]].
  - reflexivity.
  - reflexivity.
  - exists w'. split; [exact E|]. rewrite F. vm_compute. reflexivity.
Defined.

(** X7 on the sample account: the bucket is there already. *)
Lemma create_bucket_other_failure_witness :
  exists w',
    StorageBucket.create_bucket
      (StorageBucket.New "Storage Bucket" "reports" "eu-west-2")
      FakeCloud.sample_world
    = (Raise (ClientError
                (FakeCloud.fault "BucketAlreadyOwnedByYou" "CreateBucket")), w').
Proof.
  edestruct (create_bucket_other_failure
               (StorageBucket.New "Storage Bucket" "reports" "eu-west-2")
               FakeCloud.sample_world
               (FakeCloud.fault "BucketAlreadyOwnedByYou" "CreateBucket")
               FakeCloud.sample)
    as [w' [E _]].
  - vm_compute. reflexivity.
  - discriminate.
  - exists w'. exact E.
Defined.

(** X8 on the sample account: there is no such bucket. *)
Lemma policy_failures_reraised_witness :
  let self := StorageBucket.New "Storage Bucket" "sth-archive" "eu-west-2" in
  (exists w',
     StorageBucket.put_policy self "drafts"
       (Json.Obj [("Version", Json.Str "2012-10-17")]) FakeCloud.sample_world
     = (Raise (ClientError (FakeCloud.fault "NoSuchBucket" "PutBucketPolicy")),
        w')) /\
  (exists w',
     StorageBucket.get_policy self "drafts" FakeCloud.sample_world
     = (Raise (ClientError (FakeCloud.fault "NoSuchBucket" "GetBucketPolicy")),
        w')).
Proof.
  intros self. split.
  - edestruct (proj1 (policy_failures_reraised self "drafts"
                        (Json.Obj [("Version", Json.Str "2012-10-17")])
                        FakeCloud.sample_world
                        (FakeCloud.fault "NoSuchBucket" "PutBucketPolicy")
                        FakeCloud.sample))
      as [w' [E _]]; [vm_compute; reflexivity|].
    exists w'. exact E.
  - edestruct (proj2 (policy_failures_reraised self "drafts"
                        (Json.Obj [("Version", Json.Str "2012-10-17")])
                        FakeCloud.sample_world
                        (FakeCloud.fault "NoSuchBucket" "GetBucketPolicy")
                        FakeCloud.sample))
      as [w' [E _]]; [vm_compute; reflexivity|].
    exists w'. exact E.
Defined.



(** X13 where the random source repeats itself. *)
Lemma create_temp_file_collision_witness :
  let self := StorageBucket.New "Storage Bucket" "sth-archive" "eu-west-2" in
  exists name w1 w2,
    StorageBucketFiles.create_temp_file self 1 ".txt" "first"
      FakeCloud.stuck_world = (Return name, w1) /\
    StorageBucketFiles.create_temp_file self 1 ".txt" "second" w1
    = (Return name, w2) /\
    files w2 !! name = Some "second".
Proof.
  intros self.
  destruct (create_temp_file_collision self 1 1 ".txt" "first" "second"
              FakeCloud.stuck_world eq_refl)
    as [name1 [name2 [w1 [w2 [E1 [E2 [Hiff Hfile]]]]]]].
  assert (Hsame : name1 = name2) by (apply Hiff; reflexivity).
  exists name1, w1, w2. split; [exact E1|].
  split; [rewrite Hsame; exact E2|]. apply Hfile. exact Hsame.
Defined.

(** X15 on the sample account. *)
Lemma list_buckets_prints_witness :
  exists w',
    StorageBucketFiles.list_buckets
      (StorageBucket.New "Storage Bucket" "sth-archive" "eu-west-2")
      Account.sample_world = (Return tt, w') /\
    trace w' = [EPrint ["Existing buckets:"]; EPrint ["  reports"]].
Proof.
  edestruct (proj1 (list_buckets_prints
                      (StorageBucket.New "Storage Bucket" "sth-archive"
                         "eu-west-2")
                      Account.sample_world Account.sample) ["reports"])
    as [w' [E F]].
  - vm_compute. reflexivity.
  - exists w'. split; [exact E|exact F].
Defined.

(** X16 on the sample account: deleting a bucket that is there, and one
    that is not. *)
Lemma delete_bucket_outcomes_witness :
  let self := StorageBucket.New "Storage Bucket" "sth-archive" "eu-west-2" in
  (exists w',
     StorageBucketFiles.delete_bucket self "reports" Account.sample_world
     = (Return tt, w') /\
     FakeCloud.buckets (Account.core (cloud w')) !! "reports" = None) /\
  (exists w',
     StorageBucketFiles.delete_bucket self "drafts" Account.sample_world
     = (Raise (ClientError (FakeCloud.fault "NoSuchBucket" "DeleteBucket")),
        w')).
Proof.
  intros self. split.
  - edestruct (fun c1 =>
                 proj2 (proj2 (delete_bucket_outcomes self "reports"
                                 Account.sample_world c1)))
      as [w' [E [F _]]].
    + reflexivity.
    + reflexivity.
    + exists w'. split; [exact E|]. rewrite F. vm_compute. reflexivity.
  - edestruct (proj1 (delete_bucket_outcomes self "drafts"
                        Account.sample_world Account.sample)
                 (FakeCloud.fault "NoSuchBucket" "DeleteBucket"))
      as [w' [E _]]; [vm_compute; reflexivity|].
    exists w'. exact E.
Defined.

(** X17 on the sample account: the role is not there, the policy stays. *)
Lemma create_policy_orphan_witness :
  exists w',
    IAMAdminRoles.create_policy (IAMAdmin.New "convex" "eu-west-2")
      (Json.Obj [("Version", Json.Str "2012-10-17")]) "read-reports"
      "batch-role" Account.sample_world
    = (Raise (ClientError (FakeCloud.fault "NoSuchEntity" "AttachRolePolicy")),
       w') /\
    Account.policies (cloud w')
      !! "arn:aws:iam::123456789012:policy/read-reports"
    = Some (Json.dumps (Json.Obj [("Version", Json.Str "2012-10-17")])).
Proof.
  edestruct (create_policy_orphan (IAMAdmin.New "convex" "eu-west-2")
               (Json.Obj [("Version", Json.Str "2012-10-17")]) "read-reports"
               "batch-role" Account.sample_world
               "arn:aws:iam::123456789012:policy/read-reports"
               (FakeCloud.fault "NoSuchEntity" "AttachRolePolicy"))
    as [w' [E [F _]]].
  - reflexivity.
  - reflexivity.
  - exists w'. split; [exact E|]. rewrite F. vm_compute. reflexivity.
Defined.

(** X18 on the sample account. *)
Lemma create_policy_returns_witness :
  exists w',
    IAMAdminRoles.create_policy (IAMAdmin.New "convex" "eu-west-2")
      (Json.Obj [("Version", Json.Str "2012-10-17")]) "read-reports"
      "svc-role" Account.sample_world
    = (Return "arn:aws:iam::123456789012:policy/read-reports", w').
Proof.
  edestruct (create_policy_returns (IAMAdmin.New "convex" "eu-west-2")
               (Json.Obj [("Version", Json.Str "2012-10-17")]) "read-reports"
               "svc-role" Account.sample_world
               "arn:aws:iam::123456789012:policy/read-reports")
    as [w' [E _]].
  - reflexivity.
  - reflexivity.
  - exists w'. exact E.
Defined.

(** X19 on the sample account: a new role, and one that is there already. *)
Lemma create_role_outcomes_witness :
  let self := IAMAdmin.New "convex" "eu-west-2" in
  (exists w',
     IAMAdminRoles.create_role self "batch-role" "Runs the nightly batch"
       Account.sample_world
     = (Return "arn:aws:iam::123456789012:role/convex/batch-role", w')) /\
  (exists w',
     IAMAdminRoles.create_role self "svc-role" "Runs the service"
       Account.sample_world
     = (Raise (ClientError (FakeCloud.fault "EntityAlreadyExists" "CreateRole")),
        w')).
Proof.
  intros self. split.
  - edestruct (fun c' =>
                 proj1 (proj2 (create_role_outcomes self "batch-role"
                                 "Runs the nightly batch" Account.sample_world
                                 c'))
                   "arn:aws:iam::123456789012:role/convex/batch-role")
      as [w' [E _]]; [reflexivity|].
    exists w'. exact E.
  - edestruct (proj2 (proj2 (create_role_outcomes self "svc-role"
                               "Runs the service" Account.sample_world
                               Account.sample))
                 (FakeCloud.fault "EntityAlreadyExists" "CreateRole"))
      as [w' [E _]]; [vm_compute; reflexivity|].
    exists w'. exact E.
Defined.
